(** * The interval aggregator of the MongoDB profiler (qan-agent)

    A shallow embedding of
    [qan/analyzer/mongo/profiler/aggregator/aggregator.go] and the
    properties of its window arithmetic, its rotation and its result
    builder.

    The aggregator is a mutable object guarded by a mutex.  Each method is
    embedded as a function from the state before the call to the values
    returned and the state after it; the lock discipline is modelled
    separately, by the sequence of shared-memory actions each method
    performs. *)

From Stdlib Require Import ZArith Lia List Bool Ascii String Sorted.
From Stdlib Require Import Floats.PrimFloat Floats.SpecFloat Floats.FloatOps.
From stdpp Require Import strings gmap.

#[local] Open Scope Z_scope.

(** ** Machine integers

    [uint], [uint64] and [int64] are 64-bit on the platforms the agent is
    built for; a conversion between them keeps the bit pattern. *)

Definition wrap_uint64 (z : Z) : Z := z mod 2 ^ 64.
Definition wrap_int64 (z : Z) : Z := (z + 2 ^ 63) mod 2 ^ 64 - 2 ^ 63.

(** ** Package [time]

    A [time.Time] is kept as the instant it denotes, in nanoseconds since
    Go's zero time (January 1, year 1, 00:00:00 UTC).  The location only
    affects printing, and every time the aggregator compares has had its
    monotonic reading stripped ([UTC] and [Truncate] both strip it), so
    [Before] compares instants.  A [time.Duration] is an [int64] count of
    nanoseconds.  The range of [time.Time] (about 292 billion years) is not
    modelled: instants are unbounded. *)

Module time.

Definition Time := Z.
Definition Duration := Z.

Definition Second : Duration := 1000000000.

Definition UTC (t : Time) : Time := t.

Definition Before (t u : Time) : bool := t <? u.

(** [t.Truncate(d)] rounds [t] down to a multiple of [d] since the zero
    time; for [d <= 0] it returns [t] unchanged. *)
Definition Truncate (t : Time) (d : Duration) : Time :=
  if d <=? 0 then t else t - t mod d.

Definition Add (t : Time) (d : Duration) : Time := t + d.

End time.

(** ** Package [pmm/proto/config]: the analyzer configuration

    Only the fields the aggregator reads or hands on are kept. *)

Record QAN := mkQAN {
  UUID : string;
  Interval : Z;            (* uint, seconds *)
  ExampleQueries : bool
}.

(** ** Package [mongolib/proto]: a [system.profile] document *)

Module proto.

Record SystemProfile := mkSystemProfile {
  Ts : time.Time;
  Ns : string;
  Op : string;
  Millis : Z;
  ResponseLength : Z;
  Nreturned : Z;
  DocsExamined : Z
}.

End proto.

(** ** Package [mongolib/stats]: what the statistics engine reports

    The fields of [Statistics] are [float64], as are [Example.QueryTime]
    and the fields of [TimeStats] in package [event]: the aggregator
    assigns [QueryTime.Total] to the former and [s.Total / 1000] to the
    latter without a conversion, and converts only for the [uint64] fields
    of [NumberStats].  They are IEEE 754 binary64 numbers here as well. *)

Module stats.

Record Statistics := mkStatistics {
  Pct : float;
  Total : float;
  Min : float;
  Max : float;
  Avg : float;
  Pct95 : float;
  StdDev : float;
  Median : float
}.

Record QueryStats := mkQueryStats {
  ID : string;
  Namespace : string;
  Operation : string;
  Query : string;
  Fingerprint : string;
  Count : Z;             (* int *)
  QueryTime : Statistics;
  ResponseLength : Statistics;
  Returned : Statistics;
  Scanned : Statistics
}.

End stats.

(** The engine itself is a collaborator: the aggregator only calls its
    constructor, [Add], [Reset], [Queries] and [CalcQueriesStats].  [Add]
    returns the error of the call ([None] for [nil]) and the engine after
    it. *)

Definition error := string.

Class StatsEngine := {
  Stats : Type;
  QueryInfoAndCounters : Type;
  stats_New : Stats;
  stats_Add : proto.SystemProfile -> Stats -> option error * Stats;
  stats_Reset : Stats -> Stats;
  stats_Queries : Stats -> list QueryInfoAndCounters;
  CalcQueriesStats : list QueryInfoAndCounters -> Z -> list stats.QueryStats
}.

(** ** Package [go-mysql/event]: classes and their metrics *)

Module event.

Module TimeStats.
Record t := mk {
  Sum : float; Min : float; Avg : float;
  Med : float; P95 : float; Max : float
}.
End TimeStats.

Module NumberStats.
Record t := mk {
  Sum : Z; Min : Z; Avg : Z;
  Med : Z; P95 : Z; Max : Z     (* uint64 *)
}.
End NumberStats.

Module BoolStats.
Record t := mk { Sum : Z }.
End BoolStats.

Record Metrics := mkMetrics {
  TimeMetrics : gmap string TimeStats.t;
  NumberMetrics : gmap string NumberStats.t;
  BoolMetrics : gmap string BoolStats.t
}.

Definition NewMetrics : Metrics :=
  {| TimeMetrics := ∅; NumberMetrics := ∅; BoolMetrics := ∅ |}.

Record Example := mkExample {
  QueryTime : float;
  Db : string;
  Query : string;
  Size : Z;
  ExampleTs : string
}.

(** The zero value [Example{}]. *)
Definition zeroExample : Example :=
  {| QueryTime := 0%float; Db := EmptyString; Query := EmptyString;
     Size := 0; ExampleTs := EmptyString |}.

Record Class := mkClass {
  Id : string;
  Fingerprint : string;
  Metrics_ : Metrics;
  TotalQueries : Z;      (* uint *)
  UniqueQueries : Z;     (* uint *)
  Example_ : option Example;   (* *Example, None for nil *)
  outliers : Z;
  lastDb : string;
  sample : bool
}.

Definition NewClass (id fingerprint : string) (sample : bool) : Class :=
  {| Id := id;
     Fingerprint := fingerprint;
     Metrics_ := NewMetrics;
     TotalQueries := 0;
     UniqueQueries := 0;
     Example_ := Some zeroExample;
     outliers := 0;
     lastDb := EmptyString;
     sample := sample |}.

End event.

(** [Class.AddClass] bumps the counters of the receiver, drops its example
    and merges the metric maps of the class added.  The merge of the maps
    is a collaborator's business; it receives the receiver's total after
    the update, which its averages divide by. *)

Class MetricsMerge := {
  mergeMetrics : Z -> event.Metrics -> event.Metrics -> event.Metrics
}.

Definition AddClass `{MetricsMerge} (c newClass : event.Class) : event.Class :=
  let total := wrap_uint64 (event.TotalQueries c + event.TotalQueries newClass) in
  {| event.Id := event.Id c;
     event.Fingerprint := event.Fingerprint c;
     event.Metrics_ := mergeMetrics total (event.Metrics_ c) (event.Metrics_ newClass);
     event.TotalQueries := total;
     event.UniqueQueries := wrap_uint64 (event.UniqueQueries c + 1);
     event.Example_ := None;
     event.outliers := event.outliers c;
     event.lastDb := event.lastDb c;
     event.sample := event.sample c |}.

(** ** Conversion of a [float64] to [uint64]

    Go discards the fraction (truncation towards zero).  When the
    truncated value is not a [uint64] the conversion still succeeds, and
    the language leaves its result to the implementation: that result is a
    parameter of the embedding. *)

Definition float64_trunc (x : float) : option Z :=
  match Prim2SF x with
  | S754_zero _ => Some 0
  | S754_finite s m e =>
      let mag := Z.shiftl (Z.pos m) e in
      Some (if s then - mag else mag)
  | S754_infinity _ => None
  | S754_nan => None
  end.

Class Platform := {
  uint64_unrepresentable : float -> Z
}.

Definition uint64_of_float64 `{Platform} (x : float) : Z :=
  match float64_trunc x with
  | Some z => if (0 <=? z) && (z <? 2 ^ 64) then z else uint64_unrepresentable x
  | None => uint64_unrepresentable x
  end.

(** The gc compiler on amd64 converts a value below [2^63] with
    [CVTTSD2SQ] and keeps the bits of the signed result; the instruction
    answers [0x8000000000000000] when its operand is out of range or not a
    number. *)

Definition amd64_uint64_unrepresentable (x : float) : Z :=
  match float64_trunc x with
  | Some z => if (- 2 ^ 63 <=? z) && (z <? 0) then wrap_uint64 z else 2 ^ 63
  | None => 2 ^ 63
  end.

Definition amd64 : Platform :=
  {| uint64_unrepresentable := amd64_uint64_unrepresentable |}.

(** [float64(z)] for an integer of magnitude below [2^53], where the
    conversion is exact. *)
Fixpoint float64_of_pos (p : positive) : float :=
  match p with
  | xH => 1%float
  | xO q => (2 * float64_of_pos q)%float
  | xI q => (2 * float64_of_pos q + 1)%float
  end.

Definition float64_of_Z (z : Z) : float :=
  match z with
  | Z0 => 0%float
  | Zpos p => float64_of_pos p
  | Zneg p => (- float64_of_pos p)%float
  end.

(** [uint64(x)] yields [n] whenever the integer part of [x] is a
    [uint64]. *)
Definition converts (x : float) (n : Z) : Prop :=
  forall z, float64_trunc x = Some z -> 0 <= z < 2 ^ 64 -> n = z.

(** Division by 1000 as the specification words it for latencies:
    truncating integer division. *)
Definition truncatingDivision1000 (x : Z) : Z := Z.quot x 1000.

(** ** Package [strings]

    [strings.SplitN(s, sep, 2)] for a separator of one byte: [s] is cut at
    the first occurrence of the separator, and returned whole in a slice of
    length one when there is none. *)

Fixpoint cutAt (sep : ascii) (s : string) : option (string * string) :=
  match s with
  | EmptyString => None
  | String c rest =>
      if Ascii.eqb c sep then Some (EmptyString, rest)
      else match cutAt sep rest with
           | Some (before, after) => Some (String c before, after)
           | None => None
           end
  end.

Definition SplitN2 (s : string) (sep : ascii) : list string :=
  match cutAt sep s with
  | Some (before, after) => [before; after]
  | None => [s]
  end.

(** Whether the byte [sep] occurs in [s] ([strings.IndexByte(s, sep) >= 0]). *)
Fixpoint containsByte (sep : ascii) (s : string) : bool :=
  match s with
  | EmptyString => false
  | String c rest => Ascii.eqb c sep || containsByte sep rest
  end.

(** ** Package [qan/analyzer/report] *)

Module report.

Record Result := mkResult {
  Global : event.Class;
  Class_ : list event.Class
}.

(** Modelled from the spec: [report.MakeReport] belongs to this repository
    but is not among its sources here.  The spec has the report factory
    wrap a [Result] plus the window bounds and the configuration into the
    report, stamped with the bounds it is given; the report is kept as
    exactly those arguments. *)
Record Report := mkReport {
  ReportConfig : QAN;
  StartTs : time.Time;
  EndTs : time.Time;
  ReportResult : Result
}.

Definition MakeReport (config : QAN) (startTime endTime : time.Time)
    (result : Result) : Report :=
  {| ReportConfig := config; StartTs := startTime; EndTs := endTime;
     ReportResult := result |}.

End report.

(** ** The aggregator *)

Definition DefaultInterval : Z := 60.
Definition DefaultExampleQueries : bool := true.

Definition newEventNumberStats `{Platform} (s : stats.Statistics) : event.NumberStats.t :=
  {| event.NumberStats.Sum := uint64_of_float64 (stats.Total s);
     event.NumberStats.Min := uint64_of_float64 (stats.Min s);
     event.NumberStats.Avg := uint64_of_float64 (stats.Avg s);
     event.NumberStats.Med := uint64_of_float64 (stats.Median s);
     event.NumberStats.P95 := uint64_of_float64 (stats.Pct95 s);
     event.NumberStats.Max := uint64_of_float64 (stats.Max s) |}.

Definition newEventTimeStatsInMilliseconds (s : stats.Statistics) : event.TimeStats.t :=
  {| event.TimeStats.Sum := (stats.Total s / 1000)%float;
     event.TimeStats.Min := (stats.Min s / 1000)%float;
     event.TimeStats.Avg := (stats.Avg s / 1000)%float;
     event.TimeStats.Med := (stats.Median s / 1000)%float;
     event.TimeStats.P95 := (stats.Pct95 s / 1000)%float;
     event.TimeStats.Max := (stats.Max s / 1000)%float |}.

(** The database of a namespace: what precedes its first dot. *)
Definition exampleDb (namespace : string) : string :=
  let s := SplitN2 namespace "."%char in
  if (Z.of_nat (length s) =? 2) then nth 0 s EmptyString else EmptyString.

Section Aggregator.

Context `{Engine : StatsEngine} `{Merge : MetricsMerge} `{Plat : Platform}.

Record Aggregator := mkAggregator {
  config : QAN;
  timeStart : time.Time;
  timeEnd : time.Time;
  D : time.Duration;
  stats_ : Stats
}.

Definition TimeStart (self : Aggregator) : time.Time := timeStart self.
Definition TimeEnd (self : Aggregator) : time.Time := timeEnd self.

Definition newInterval (ts : time.Time) (self : Aggregator) : Aggregator :=
  let start := time.Truncate (time.UTC ts) (D self) in
  {| config := config self;
     timeStart := start;
     timeEnd := time.Add start (D self);
     D := D self;
     stats_ := stats_Reset (stats_ self) |}.

(** The class built for one entry of the statistics, as in the body of the
    loop of [createResult]. *)
Definition newClassOf (exampleQueries : bool) (queryInfo : stats.QueryStats)
    : event.Class :=
  let class := event.NewClass (stats.ID queryInfo) (stats.Fingerprint queryInfo)
                 exampleQueries in
  let example :=
    if exampleQueries then
      Some {| event.QueryTime := stats.Total (stats.QueryTime queryInfo);
              event.Db := exampleDb (stats.Namespace queryInfo);
              event.Query := stats.Query queryInfo;
              event.Size := 0;
              event.ExampleTs := EmptyString |}
    else event.Example_ class in
  let metrics :=
    {| event.TimeMetrics :=
         <["Query_time" := newEventTimeStatsInMilliseconds (stats.QueryTime queryInfo)]>
           (event.TimeMetrics event.NewMetrics);
       event.NumberMetrics :=
         <["Rows_examined" := newEventNumberStats (stats.Scanned queryInfo)]>
           (<["Rows_sent" := newEventNumberStats (stats.Returned queryInfo)]>
              (<["Bytes_sent" := newEventNumberStats (stats.ResponseLength queryInfo)]>
                 (event.NumberMetrics event.NewMetrics)));
       event.BoolMetrics := event.BoolMetrics event.NewMetrics |} in
  {| event.Id := event.Id class;
     event.Fingerprint := event.Fingerprint class;
     event.Metrics_ := metrics;
     event.TotalQueries := wrap_uint64 (stats.Count queryInfo);
     event.UniqueQueries := 1;
     event.Example_ := example;
     event.outliers := event.outliers class;
     event.lastDb := event.lastDb class;
     event.sample := event.sample class |}.

(** One turn of the loop: the class is appended and added to the global
    class. *)
Definition addQuery (exampleQueries : bool)
    (acc : event.Class * list event.Class) (queryInfo : stats.QueryStats)
    : event.Class * list event.Class :=
  let class := newClassOf exampleQueries queryInfo in
  (AddClass (fst acc) class, snd acc ++ [class]).

(** [createResult] reads the queries of the engine and the configuration;
    [buildResult] is what it computes from them. *)
Definition buildResult (cfg : QAN) (queries : list QueryInfoAndCounters)
    : report.Result :=
  let global := event.NewClass EmptyString EmptyString false in
  let queryStats := CalcQueriesStats queries (wrap_int64 (Interval cfg)) in
  let '(global, classes) :=
    fold_left (addQuery (ExampleQueries cfg)) queryStats (global, []) in
  {| report.Global := global; report.Class_ := classes |}.

Definition createResult (self : Aggregator) : report.Result :=
  buildResult (config self) (stats_Queries (stats_ self)).

(** [interval] defers [newInterval]: the report is built from the state
    the call found, and the new interval is set up once the value to return
    is known. *)
Definition interval (ts : time.Time) (self : Aggregator)
    : option report.Report * Aggregator :=
  if time.Before ts (timeEnd self) then (None, self)
  else
    let ret :=
      if (Z.of_nat (length (stats_Queries (stats_ self))) =? 0) then None
      else Some (report.MakeReport (config self) (timeStart self) (timeEnd self)
                   (createResult self)) in
    (ret, newInterval ts self).

(** [Add] returns the report, the error and the state it leaves. *)
Definition Add (doc : proto.SystemProfile) (self : Aggregator)
    : option report.Report * option error * Aggregator :=
  let ts := time.UTC (proto.Ts doc) in
  if time.Before ts (timeStart self) then (None, None, self)
  else
    let '(rep, self1) := interval ts self in
    let '(err, st) := stats_Add doc (stats_ self1) in
    (rep, err,
     {| config := config self1; timeStart := timeStart self1;
        timeEnd := timeEnd self1; D := D self1; stats_ := st |}).

(** [Report] reads the clock: [now] is what [time.Now()] returned. *)
Definition Report (now : time.Time) (self : Aggregator)
    : option report.Report * Aggregator :=
  interval now self.

Definition New (timeStart0 : time.Time) (config0 : QAN) : Aggregator :=
  let config1 :=
    if Interval config0 =? 0
    then {| UUID := UUID config0; Interval := DefaultInterval;
            ExampleQueries := DefaultExampleQueries |}
    else config0 in
  let aggregator :=
    {| config := config1;
       timeStart := 0;
       timeEnd := 0;
       D := wrap_int64 (wrap_int64 (Interval config1) * time.Second);
       stats_ := stats_New |} in
  newInterval timeStart0 aggregator.

End Aggregator.

Arguments Aggregator {Engine}.
Arguments mkAggregator {Engine}.

(** ** Sequences of calls

    A caller drives the aggregator by a sequence of [Add] and [Report]
    calls; [run] collects the reports in the order they are returned and
    [windowsOf] the window left by each call. *)

Inductive Call :=
| CallAdd (doc : proto.SystemProfile)
| CallReport (now : time.Time).

Section Runs.

Context `{Engine : StatsEngine} `{Merge : MetricsMerge} `{Plat : Platform}.

Definition window (self : Aggregator) : time.Time * time.Time :=
  (TimeStart self, TimeEnd self).

Definition step (c : Call) (self : Aggregator) : option report.Report * Aggregator :=
  match c with
  | CallAdd doc => let '(rep, _, self') := Add doc self in (rep, self')
  | CallReport now => Report now self
  end.

Fixpoint run (calls : list Call) (self : Aggregator) : list report.Report * Aggregator :=
  match calls with
  | [] => ([], self)
  | c :: rest =>
      let '(rep, self') := step c self in
      let '(reps, final) := run rest self' in
      (match rep with Some r => r :: reps | None => reps end, final)
  end.

Fixpoint windowsOf (calls : list Call) (self : Aggregator) : list (time.Time * time.Time) :=
  match calls with
  | [] => []
  | c :: rest =>
      let self' := snd (step c self) in
      window self' :: windowsOf rest self'
  end.

(** A window of a positive duration [D], starting at a multiple of [D]. *)
Definition aligned (self : Aggregator) : Prop :=
  0 < D self /\ timeEnd self = timeStart self + D self /\
  timeStart self mod D self = 0.

(** The later window starts at or after the end of the earlier one. *)
Definition advances (w1 w2 : time.Time * time.Time) : Prop :=
  fst w1 < fst w2 /\ snd w1 < snd w2 /\ snd w1 <= fst w2.

Definition windowStep (w1 w2 : time.Time * time.Time) : Prop :=
  w1 = w2 \/ advances w1 w2.

Definition precedes (r1 r2 : report.Report) : Prop :=
  report.EndTs r1 <= report.StartTs r2.

End Runs.

(** ** The methods as sequences of shared-memory actions

    The aggregator is shared between goroutines.  To talk about the lock,
    each method is also embedded as the sequence of actions it performs on
    the shared object: taking and releasing the mutex, loading and storing
    a field, calling the engine.  A continuation receives what an action
    reads. *)

Module concurrent.

Section Programs.

Context `{Engine : StatsEngine} `{Merge : MetricsMerge} `{Plat : Platform}.

Inductive Value :=
| VTime (t : time.Time)
| VWindow (start finish : time.Time)
| VReport (rep : option report.Report)
| VAdd (rep : option report.Report) (err : option error).

Inductive Prog :=
| Return (v : Value)
| Lock (k : Prog)
| Unlock (k : Prog)
| LoadTimeStart (k : time.Time -> Prog)
| LoadTimeEnd (k : time.Time -> Prog)
| LoadD (k : time.Duration -> Prog)
| LoadConfig (k : QAN -> Prog)
| StoreTimeStart (t : time.Time) (k : Prog)
| StoreTimeEnd (t : time.Time) (k : Prog)
| Queries (k : list QueryInfoAndCounters -> Prog)
| StatsReset (k : Prog)
| StatsAdd (doc : proto.SystemProfile) (k : option error -> Prog).

Definition TimeStart : Prog := LoadTimeStart (fun t => Return (VTime t)).

Definition TimeEnd : Prog := LoadTimeEnd (fun t => Return (VTime t)).

(** A caller that stamps something with the current window calls
    [TimeStart()] and then [TimeEnd()]. *)
Definition readWindow : Prog :=
  LoadTimeStart (fun s => LoadTimeEnd (fun e => Return (VWindow s e))).

Definition newInterval (ts : time.Time) (k : Prog) : Prog :=
  StatsReset
    (LoadD (fun d =>
     StoreTimeStart (time.Truncate (time.UTC ts) d)
       (LoadTimeStart (fun s =>
        LoadD (fun d' =>
        StoreTimeEnd (time.Add s d') k))))).

Definition createResult (k : report.Result -> Prog) : Prog :=
  Queries (fun queries => LoadConfig (fun cfg => k (buildResult cfg queries))).

(** The deferred [newInterval] runs when the value to return is known. *)
Definition interval (ts : time.Time) (k : option report.Report -> Prog) : Prog :=
  LoadTimeEnd (fun e =>
    if time.Before ts e then k None
    else
      Queries (fun queries =>
        if Z.of_nat (length queries) =? 0 then newInterval ts (k None)
        else
          createResult (fun result =>
          LoadConfig (fun cfg =>
          LoadTimeStart (fun s =>
          LoadTimeEnd (fun e' =>
            newInterval ts (k (Some (report.MakeReport cfg s e' result))))))))).

(** The deferred [Unlock] runs last. *)
Definition Add (doc : proto.SystemProfile) : Prog :=
  Lock
    (let ts := time.UTC (proto.Ts doc) in
     LoadTimeStart (fun s =>
       if time.Before ts s then Unlock (Return (VAdd None None))
       else
         interval ts (fun rep =>
         StatsAdd doc (fun err =>
         Unlock (Return (VAdd rep err)))))).

Definition Report (now : time.Time) : Prog :=
  Lock (interval now (fun rep => Unlock (Return (VReport rep)))).

(** The shared object: the fields of the aggregator and whether its mutex
    is held. *)
Record Shared := mkShared {
  object : Aggregator;
  locked : bool
}.

Definition setObject (f : Aggregator -> Aggregator) (m : Shared) : Shared :=
  {| object := f (object m); locked := locked m |}.

(** One action of a goroutine.  [Lock] waits while the mutex is held: the
    goroutine has no step then.  Nothing but [Lock] looks at the mutex:
    loads and stores go through whether or not it is held. *)
Definition exec1 (p : Prog) (m : Shared) : option (Prog * Shared) :=
  match p with
  | Return _ => None
  | Lock k =>
      if locked m then None
      else Some (k, {| object := object m; locked := true |})
  | Unlock k =>
      if locked m then Some (k, {| object := object m; locked := false |})
      else None
  | LoadTimeStart k => Some (k (timeStart (object m)), m)
  | LoadTimeEnd k => Some (k (timeEnd (object m)), m)
  | LoadD k => Some (k (D (object m)), m)
  | LoadConfig k => Some (k (config (object m)), m)
  | StoreTimeStart t k =>
      Some (k, setObject (fun a =>
                 {| config := config a; timeStart := t; timeEnd := timeEnd a;
                    D := D a; stats_ := stats_ a |}) m)
  | StoreTimeEnd t k =>
      Some (k, setObject (fun a =>
                 {| config := config a; timeStart := timeStart a; timeEnd := t;
                    D := D a; stats_ := stats_ a |}) m)
  | Queries k => Some (k (stats_Queries (stats_ (object m))), m)
  | StatsReset k =>
      Some (k, setObject (fun a =>
                 {| config := config a; timeStart := timeStart a;
                    timeEnd := timeEnd a; D := D a;
                    stats_ := stats_Reset (stats_ a) |}) m)
  | StatsAdd doc k =>
      let '(err, st) := stats_Add doc (stats_ (object m)) in
      Some (k err, setObject (fun a =>
                     {| config := config a; timeStart := timeStart a;
                        timeEnd := timeEnd a; D := D a; stats_ := st |}) m)
  end.

(** A goroutine running alone, for at most [fuel] actions. *)
Fixpoint execAlone (fuel : nat) (p : Prog) (m : Shared) : option (Value * Shared) :=
  match p with
  | Return v => Some (v, m)
  | _ =>
      match fuel with
      | O => None
      | S fuel' =>
          match exec1 p m with
          | Some (p', m') => execAlone fuel' p' m'
          | None => None
          end
      end
  end.

(** Goroutines interleaved by a schedule: each entry names the goroutine
    that performs the next action; an entry naming a goroutine that cannot
    move is skipped. *)
Fixpoint setNth (i : nat) (p : Prog) (pool : list Prog) : list Prog :=
  match pool, i with
  | [], _ => []
  | _ :: rest, O => p :: rest
  | q :: rest, S i' => q :: setNth i' p rest
  end.

Definition execPool (i : nat) (pool : list Prog) (m : Shared) : list Prog * Shared :=
  match nth_error pool i with
  | Some p =>
      match exec1 p m with
      | Some (p', m') => (setNth i p' pool, m')
      | None => (pool, m)
      end
  | None => (pool, m)
  end.

Fixpoint execSchedule (schedule : list nat) (pool : list Prog) (m : Shared)
    : list Prog * Shared :=
  match schedule with
  | [] => (pool, m)
  | i :: rest =>
      let '(pool', m') := execPool i pool m in
      execSchedule rest pool' m'
  end.

(** The lock discipline of a program: [guarded h p] says that [p], started
    with the mutex held by its goroutine ([h = true]) or not, touches the
    shared fields only while it holds the mutex, and has released it when
    it returns. *)
Fixpoint guarded (h : bool) (p : Prog) : Prop :=
  match p with
  | Return _ => h = false
  | Lock k => h = false /\ guarded true k
  | Unlock k => h = true /\ guarded false k
  | LoadTimeStart k => h = true /\ forall t, guarded h (k t)
  | LoadTimeEnd k => h = true /\ forall t, guarded h (k t)
  | LoadD k => h = true /\ forall d, guarded h (k d)
  | LoadConfig k => h = true /\ forall c, guarded h (k c)
  | StoreTimeStart _ k => h = true /\ guarded h k
  | StoreTimeEnd _ k => h = true /\ guarded h k
  | Queries k => h = true /\ forall q, guarded h (k q)
  | StatsReset k => h = true /\ guarded h k
  | StatsAdd _ k => h = true /\ forall e, guarded h (k e)
  end.

(** The actions of a call of [Add] or [Report]. *)
Definition progOf (c : Call) : Prog :=
  match c with
  | CallAdd doc => Add doc
  | CallReport now => Report now
  end.

(** [inside p]: [p] is the rest of one critical section; it neither takes
    the mutex again nor returns before it has released it, and it returns
    as soon as it has. *)
Fixpoint inside (p : Prog) : Prop :=
  match p with
  | Return _ => False
  | Lock _ => False
  | Unlock k => exists v, k = Return v
  | LoadTimeStart k => forall t, inside (k t)
  | LoadTimeEnd k => forall t, inside (k t)
  | LoadD k => forall d, inside (k d)
  | LoadConfig k => forall c, inside (k c)
  | StoreTimeStart _ k => inside k
  | StoreTimeEnd _ k => inside k
  | Queries k => forall q, inside (k q)
  | StatsReset k => inside k
  | StatsAdd _ k => forall e, inside (k e)
  end.

(** A goroutine that has not started its call, or has returned from it. *)
Definition idle (c : Call) (p : Prog) : Prop :=
  p = progOf c \/ exists v, p = Return v.

(** The pool and the shared object are in a state that whole calls, one
    after the other, lead to: with the mutex free the aggregator is the
    result of a sequence [done] of calls of [cs]; with the mutex held, one
    goroutine is inside its call [c], and what it still has to do leads,
    undisturbed, to the result of that call on the result of the calls
    before it. *)
Definition serial (cs : list Call) (a0 : Aggregator) (pool : list Prog)
    (m : Shared) : Prop :=
  exists done,
    Forall (fun c => In c cs) done /\
    ((locked m = false /\ object m = snd (run done a0) /\ Forall2 idle cs pool) \/
     (locked m = true /\
      exists i p pool0 c pre n v,
        done = pre ++ [c] /\ nth_error cs i = Some c /\
        Forall2 idle cs pool0 /\ pool = setNth i p pool0 /\ inside p /\
        execAlone n p m =
          Some (v, {| object := snd (step c (snd (run pre a0)));
                      locked := false |}))).

End Programs.

End concurrent.

(** ** An engine to run examples with

    The theorems below hold for every engine, every merge of metric maps
    and every platform.  The following small engine groups the documents by
    namespace and refuses a document without operation; it serves to run
    the aggregator on concrete calls. *)

Module sample.

Record QueryInfoAndCounters := mkQueryInfoAndCounters {
  Namespace : string;
  Operation : string;
  Docs : list proto.SystemProfile
}.

Fixpoint addDoc (doc : proto.SystemProfile) (s : list QueryInfoAndCounters)
    : list QueryInfoAndCounters :=
  match s with
  | [] => [ {| Namespace := proto.Ns doc; Operation := proto.Op doc; Docs := [doc] |} ]
  | q :: rest =>
      if String.eqb (Namespace q) (proto.Ns doc)
      then {| Namespace := Namespace q; Operation := Operation q;
              Docs := Docs q ++ [doc] |} :: rest
      else q :: addDoc doc rest
  end.

Definition accumulate (doc : proto.SystemProfile) (s : list QueryInfoAndCounters)
    : option error * list QueryInfoAndCounters :=
  if String.eqb (proto.Op doc) EmptyString
  then (Some "fingerprint: no operation"%string, s)
  else (None, addDoc doc s).

Definition statisticsOf (samples : list Z) : stats.Statistics :=
  let total := float64_of_Z (fold_right Z.add 0 samples) in
  let avg := (total / float64_of_Z (Z.of_nat (length samples)))%float in
  let least := float64_of_Z (fold_right Z.min (hd 0 samples) samples) in
  let most := float64_of_Z (fold_right Z.max (hd 0 samples) samples) in
  {| stats.Pct := 0%float; stats.Total := total; stats.Min := least;
     stats.Max := most; stats.Avg := avg; stats.Pct95 := most;
     stats.StdDev := 0%float; stats.Median := avg |}.

Definition toQueryStats (q : QueryInfoAndCounters) : stats.QueryStats :=
  {| stats.ID := Namespace q;
     stats.Namespace := Namespace q;
     stats.Operation := Operation q;
     stats.Query := Operation q;
     stats.Fingerprint := Operation q;
     stats.Count := Z.of_nat (length (Docs q));
     stats.QueryTime := statisticsOf (map proto.Millis (Docs q));
     stats.ResponseLength := statisticsOf (map proto.ResponseLength (Docs q));
     stats.Returned := statisticsOf (map proto.Nreturned (Docs q));
     stats.Scanned := statisticsOf (map proto.DocsExamined (Docs q)) |}.

Definition engine : StatsEngine :=
  Build_StatsEngine
    (list QueryInfoAndCounters) QueryInfoAndCounters
    [] accumulate (fun _ => []) (fun s => s)
    (fun queries _ => map toQueryStats queries).

(** A merge that keeps the entries of the receiver and adds those it
    lacks. *)
Definition merge : MetricsMerge :=
  {| mergeMetrics := fun _ m n =>
       {| event.TimeMetrics := event.TimeMetrics m ∪ event.TimeMetrics n;
          event.NumberMetrics := event.NumberMetrics m ∪ event.NumberMetrics n;
          event.BoolMetrics := event.BoolMetrics m ∪ event.BoolMetrics n |} |}.

(** Instants of the examples, counted from midnight of a day that is a
    whole number of days after the zero time. *)
Definition midnight : time.Time := 63650000000 * 86400 * time.Second.

Definition clock (h m s : Z) : time.Time :=
  midnight + ((h * 60 + m) * 60 + s) * time.Second.

Definition find (ns op : string) (at_ : time.Time) (millis : Z) : proto.SystemProfile :=
  {| proto.Ts := at_; proto.Ns := ns; proto.Op := op; proto.Millis := millis;
     proto.ResponseLength := 100; proto.Nreturned := 2; proto.DocsExamined := 7 |}.

Definition minuteConfig : QAN :=
  {| UUID := "a1"; Interval := 60; ExampleQueries := true |}.

(** The scenario of the specification: an aggregator created at 12:15:35
    with an interval of 60 seconds, a first query at 12:15:40 and a second
    one at 12:16:05. *)
Definition start : @Aggregator engine := @New engine (clock 12 15 35) minuteConfig.

Definition q1 : proto.SystemProfile := find "shop.orders" "find" (clock 12 15 40) 1500.

Definition q2 : proto.SystemProfile := find "shop.users" "update" (clock 12 16 5) 3000.

Definition afterQ1 : @Aggregator engine := snd (@Add engine merge amd64 q1 start).

Definition afterQ2 : @Aggregator engine := snd (@Add engine merge amd64 q2 afterQ1).

(** An event of the first window that arrives after the rotation. *)
Definition late : proto.SystemProfile := find "shop.orders" "find" (clock 12 15 50) 10.

Definition calls : list Call :=
  [CallAdd q1; CallAdd q2; CallAdd late; CallReport (clock 12 20 10);
   CallReport (clock 12 20 30)].

(** A configuration that asks for the defaults and sets [ExampleQueries]
    to false. *)
Definition zeroConfig : QAN :=
  {| UUID := "a1"; Interval := 0; ExampleQueries := false |}.

(** Statistics of a single sample, and negative ones. *)
Definition slow : stats.Statistics := statisticsOf [1500].

Definition negative : stats.Statistics := statisticsOf [-1].

(** A 64-bit interval whose duration in nanoseconds wraps to a negative
    [int64]. *)
Definition wrappingConfig : QAN :=
  {| UUID := "a1"; Interval := 9223372037; ExampleQueries := true |}.

End sample.

(** Further states of the scenario. *)

Module scenario.

(** The aggregator of the scenario with example queries switched off. *)
Definition quietConfig : QAN :=
  {| UUID := "a1"; Interval := 60; ExampleQueries := false |}.

Definition quietAfterQ1 : @Aggregator sample.engine :=
  snd (@Add sample.engine sample.merge amd64 sample.q1
         (@New sample.engine (sample.clock 12 15 35) quietConfig)).

(** An aggregator whose duration wrapped to a negative [int64]. *)
Definition wrapped : @Aggregator sample.engine :=
  @New sample.engine (sample.clock 12 15 35) sample.wrappingConfig.

(** Two goroutines, one adding the second query and one reporting. *)
Definition twoCalls : list Call :=
  [CallAdd sample.q2; CallReport (sample.clock 12 17 30)].

End scenario.

(** * Properties *)

(** ** Machine integers *)

Lemma wrap_int64_small z : - 2 ^ 63 <= z < 2 ^ 63 -> wrap_int64 z = z.
Proof. intros Hz. unfold wrap_int64. rewrite Z.mod_small; lia. Qed.

Lemma wrap_uint64_small z : 0 <= z < 2 ^ 64 -> wrap_uint64 z = z.
Proof. intros Hz. unfold wrap_uint64. now rewrite Z.mod_small. Qed.

(** ** Truncation *)

Lemma Truncate_bounds t d :
  0 < d -> time.Truncate t d <= t < time.Truncate t d + d.
Proof.
  intros Hd. unfold time.Truncate.
  destruct (Z.leb_spec d 0) as [Hle | _]; [lia |].
  pose proof (Z.mod_pos_bound t d Hd). lia.
Qed.

Lemma Truncate_aligned t d : 0 < d -> time.Truncate t d mod d = 0.
Proof.
  intros Hd. unfold time.Truncate.
  destruct (Z.leb_spec d 0) as [Hle | _]; [lia |].
  rewrite Zminus_mod_idemp_r, Z.sub_diag. apply Z.mod_0_l. lia.
Qed.

Lemma Truncate_above_aligned t d e :
  0 < d -> e mod d = 0 -> e <= t -> e <= time.Truncate t d.
Proof.
  intros Hd He Het. unfold time.Truncate.
  destruct (Z.leb_spec d 0) as [Hle | _]; [lia |].
  apply Z.mod_divide in He; [| lia]. destruct He as [k ->].
  rewrite (Z.div_mod t d) at 1 by lia.
  pose proof (Z.mod_pos_bound t d Hd) as Hb.
  replace (d * (t / d) + t mod d - t mod d) with ((t / d) * d) by lia.
  apply Z.mul_le_mono_nonneg_r; [lia |].
  apply Z.div_le_lower_bound; lia.
Qed.

Lemma Truncate_nonpositive t d : d <= 0 -> time.Truncate t d = t.
Proof.
  intros Hd. unfold time.Truncate. destruct (Z.leb_spec d 0); [reflexivity | lia].
Qed.

(** ** Rotation *)

Section Rotation.

Context `{Engine : StatsEngine} `{Merge : MetricsMerge} `{Plat : Platform}.

Implicit Types (self : Aggregator) (ts : time.Time) (doc : proto.SystemProfile).

Lemma interval_before_end ts self :
  ts < timeEnd self -> interval ts self = (None, self).
Proof.
  intros Hlt. unfold interval, time.Before.
  destruct (Z.ltb_spec ts (timeEnd self)); [reflexivity | lia].
Qed.

Lemma interval_at_or_after_end ts self :
  timeEnd self <= ts ->
  interval ts self =
    (if Z.of_nat (length (stats_Queries (stats_ self))) =? 0 then None
     else Some (report.MakeReport (config self) (timeStart self) (timeEnd self)
                  (createResult self)),
     newInterval ts self).
Proof.
  intros Hle. unfold interval, time.Before.
  destruct (Z.ltb_spec ts (timeEnd self)); [lia | reflexivity].
Qed.

Lemma newInterval_end_after ts self :
  0 < D self -> ts < timeEnd (newInterval ts self).
Proof.
  intros HD. cbn. unfold time.Add, time.UTC.
  pose proof (Truncate_bounds ts (D self) HD). lia.
Qed.

Lemma Add_not_stale doc self :
  timeStart self <= proto.Ts doc ->
  Add doc self =
    (let '(rep, self1) := interval (proto.Ts doc) self in
     let '(err, st) := stats_Add doc (stats_ self1) in
     (rep, err,
      {| config := config self1; timeStart := timeStart self1;
         timeEnd := timeEnd self1; D := D self1; stats_ := st |})).
Proof.
  intros Hle. unfold Add, time.Before, time.UTC.
  destruct (Z.ltb_spec (proto.Ts doc) (timeStart self)); [lia | reflexivity].
Qed.

Lemma Add_stale doc self :
  proto.Ts doc < timeStart self -> Add doc self = (None, None, self).
Proof.
  intros Hlt. unfold Add, time.Before, time.UTC.
  destruct (Z.ltb_spec (proto.Ts doc) (timeStart self)); [reflexivity | lia].
Qed.

(** C3: an event whose timestamp is strictly before the start of the
    current window makes [Add] return a nil report and a nil error; the
    window is not rotated and the engine is left as it was: the whole
    aggregator is unchanged. *)
Theorem Add_drops_stale_event doc self :
  proto.Ts doc < timeStart self ->
  Add doc self = (None, None, self).
Proof.
  intros Hlt. unfold Add. unfold time.UTC, time.Before.
  apply Z.ltb_lt in Hlt. now rewrite Hlt.
Qed.

(** C2: a trigger instant strictly before the end of the window performs
    no rotation: [interval] (hence [Report], and [Add] for the timestamp of
    its event) returns no report and leaves the aggregator, its bounds
    included, as it was.  A trigger instant at or after the end of the
    window rotates: the state left is that of [newInterval] at the trigger,
    in particular for the instant equal to [timeEnd]; for a positive
    duration the end of the window then moves strictly past the trigger,
    so that the bounds change exactly when the trigger is at or after the
    end. *)
Theorem rotation_iff_trigger_at_or_after_end ts self :
  (ts < timeEnd self ->
     interval ts self = (None, self) /\ Report ts self = (None, self) /\
     forall doc, proto.Ts doc = ts ->
       fst (fst (Add doc self)) = None /\
       window (snd (Add doc self)) = window self) /\
  (timeEnd self <= ts ->
     snd (interval ts self) = newInterval ts self /\
     snd (Report ts self) = newInterval ts self /\
     (forall doc, proto.Ts doc = ts -> timeStart self <= ts ->
        window (snd (Add doc self)) = window (newInterval ts self)) /\
     (0 < D self -> timeEnd self < timeEnd (snd (interval ts self)))) /\
  snd (interval (timeEnd self) self) = newInterval (timeEnd self) self /\
  (0 < D self ->
     (window (snd (interval ts self)) <> window self <-> timeEnd self <= ts)).
Proof.
  assert (Hrot : timeEnd self <= ts -> 0 < D self ->
                 timeEnd self < timeEnd (snd (interval ts self))).
  { intros Hle HD. rewrite interval_at_or_after_end by exact Hle. cbn [snd].
    pose proof (newInterval_end_after ts self HD). lia. }
  repeat split.
  - now apply interval_before_end.
  - unfold Report. now apply interval_before_end.
  - subst ts. unfold Add, time.Before, time.UTC.
    destruct (Z.ltb_spec (proto.Ts doc) (timeStart self)); [reflexivity |].
    rewrite interval_before_end by assumption.
    destruct (stats_Add doc (stats_ self)); reflexivity.
  - subst ts. unfold Add, time.Before, time.UTC.
    destruct (Z.ltb_spec (proto.Ts doc) (timeStart self)); [reflexivity |].
    rewrite interval_before_end by assumption.
    destruct (stats_Add doc (stats_ self)); reflexivity.
  - now rewrite interval_at_or_after_end.
  - unfold Report. now rewrite interval_at_or_after_end.
  - intros doc Hts Hstart. subst ts. rewrite Add_not_stale by assumption.
    rewrite interval_at_or_after_end by assumption.
    destruct (stats_Add doc (stats_ (newInterval (proto.Ts doc) self))); reflexivity.
  - intros HD. now apply Hrot.
  - rewrite interval_at_or_after_end by lia. reflexivity.
  - intros Hne. destruct (Z.lt_ge_cases ts (timeEnd self)) as [Hlt | Hge]; [| exact Hge].
    rewrite interval_before_end in Hne by exact Hlt. now contradiction Hne.
  - intros Hle Heq. match goal with HD : 0 < D self |- _ => specialize (Hrot Hle HD) end.
    unfold window, TimeStart, TimeEnd in Heq. injection Heq as _ Hend. lia.
Qed.

(** C1, as the code has it: when the event is not stale (its timestamp
    is not before the start of the current window) and its timestamp is at
    or after the end of the current window, [Add] rotates before it
    accumulates.  If the closing window has queries the report returned
    carries the bounds and the result of the closing window, and for a
    positive duration its end lies strictly before the end of the new
    window.  The window left is the one established at the timestamp of the
    event: it starts at the truncation of the timestamp and ends one
    duration later, which for a positive duration [D] is [ts - ts mod D]
    and [ts - ts mod D + D]; the engine left (with the error returned) is
    the engine reset and then given the event. *)
Theorem Add_rotates_before_accumulating doc self :
  timeStart self <= proto.Ts doc ->
  timeEnd self <= proto.Ts doc ->
  let '(rep, err, self') := Add doc self in
  (stats_Queries (stats_ self) <> [] ->
     exists r, rep = Some r /\
       report.StartTs r = timeStart self /\
       report.EndTs r = timeEnd self /\
       report.ReportConfig r = config self /\
       report.ReportResult r = createResult self /\
       (0 < D self -> report.EndTs r < timeEnd self')) /\
  timeStart self' = time.Truncate (proto.Ts doc) (D self) /\
  timeEnd self' = time.Truncate (proto.Ts doc) (D self) + D self /\
  (0 < D self ->
     timeStart self' = proto.Ts doc - proto.Ts doc mod D self /\
     timeEnd self' = proto.Ts doc - proto.Ts doc mod D self + D self) /\
  (err, stats_ self') = stats_Add doc (stats_Reset (stats_ self)).
Proof.
  intros Hstart Hend.
  rewrite Add_not_stale by exact Hstart.
  rewrite interval_at_or_after_end by exact Hend.
  cbn [newInterval stats_].
  destruct (stats_Add doc (stats_Reset (stats_ self))) as [err st] eqn:Hadd.
  cbn [timeStart timeEnd stats_]. unfold time.Add, time.UTC.
  split; [| split; [reflexivity |]; split; [reflexivity |]; split; [| reflexivity]].
  - intros Hne.
    destruct (stats_Queries (stats_ self)) as [| q qs] eqn:Hq; [contradiction |].
    cbn [length]. rewrite Nat2Z.inj_succ.
    destruct (Z.eqb_spec (Z.succ (Z.of_nat (length qs))) 0) as [H0 | _]; [lia |].
    eexists. split; [reflexivity |].
    cbn [report.MakeReport report.StartTs report.EndTs report.ReportConfig
         report.ReportResult].
    split; [reflexivity |]. split; [reflexivity |]. split; [reflexivity |].
    split; [reflexivity |].
    intros HD. pose proof (Truncate_bounds (proto.Ts doc) (D self) HD).
    cbn [newInterval timeEnd]. unfold time.Add, time.UTC. lia.
  - intros HD. cbn [newInterval timeStart timeEnd].
    unfold time.Add, time.UTC, time.Truncate.
    destruct (Z.leb_spec (D self) 0); [lia |]. split; reflexivity.
Qed.

(** C4: a rotation that closes a window without queries produces no
    report, but the engine is reset and the window advances to the
    truncation of the trigger instant: the start of the new window is
    [Truncate ts D] and its end is that plus [D]; for a positive [D] these
    are [ts - ts mod D] and [ts - ts mod D + D], a window of length [D]
    that contains [ts].  This holds for [Report] and for [Add], which then
    hands its event to the engine it has just reset. *)
Theorem empty_window_rotates_without_report ts self :
  stats_Queries (stats_ self) = [] ->
  timeEnd self <= ts ->
  Report ts self = (None, newInterval ts self) /\
  timeStart (newInterval ts self) = time.Truncate ts (D self) /\
  timeEnd (newInterval ts self) = time.Truncate ts (D self) + D self /\
  stats_ (newInterval ts self) = stats_Reset (stats_ self) /\
  (0 < D self ->
     timeStart (newInterval ts self) = ts - ts mod D self /\
     timeEnd (newInterval ts self) = ts - ts mod D self + D self /\
     timeStart (newInterval ts self) <= ts < timeEnd (newInterval ts self)) /\
  (forall doc, proto.Ts doc = ts -> timeStart self <= ts ->
     let '(rep, err, self') := Add doc self in
     rep = None /\
     timeStart self' = time.Truncate ts (D self) /\
     timeEnd self' = time.Truncate ts (D self) + D self /\
     (err, stats_ self') = stats_Add doc (stats_Reset (stats_ self))).
Proof.
  intros Hempty Hend.
  split; [| split; [reflexivity |]; split; [reflexivity |];
            split; [reflexivity |]; split].
  - unfold Report. rewrite interval_at_or_after_end by exact Hend.
    now rewrite Hempty.
  - intros HD. cbn [newInterval timeStart timeEnd]. unfold time.Add, time.UTC.
    pose proof (Z.mod_pos_bound ts (D self) HD) as Hmod.
    unfold time.Truncate. destruct (Z.leb_spec (D self) 0); [lia |].
    split; [reflexivity |]. split; [reflexivity |]. lia.
  - intros doc Hts Hstart. subst ts.
    rewrite Add_not_stale by exact Hstart.
    rewrite interval_at_or_after_end by exact Hend.
    rewrite Hempty. cbn [length Z.of_nat Z.eqb newInterval stats_].
    destruct (stats_Add doc (stats_Reset (stats_ self))) as [err st].
    cbn [timeStart timeEnd stats_]. unfold time.Add, time.UTC.
    split; [reflexivity |]. split; [reflexivity |]. split; reflexivity.
Qed.

End Rotation.

(** ** Construction *)

Section Construction.

Context `{Engine : StatsEngine} `{Merge : MetricsMerge} `{Plat : Platform}.

(** C8: a configuration whose interval is zero gives the aggregator that
    the same configuration with interval 60 and example queries enabled
    gives, whatever value of [ExampleQueries] came with the zero: the
    configuration kept has both defaults and the duration is 60 seconds.
    A non-zero interval leaves the configuration as given, and the duration
    is that many seconds (as an [int64] count of nanoseconds). *)
Theorem New_applies_both_defaults t0 cfg :
  (Interval cfg = 0 ->
     New t0 cfg =
       New t0 {| UUID := UUID cfg; Interval := 60; ExampleQueries := true |} /\
     config (New t0 cfg) =
       {| UUID := UUID cfg; Interval := 60; ExampleQueries := true |} /\
     D (New t0 cfg) = 60 * time.Second) /\
  (Interval cfg <> 0 ->
     config (New t0 cfg) = cfg /\
     D (New t0 cfg) = wrap_int64 (wrap_int64 (Interval cfg) * time.Second) /\
     (0 < Interval cfg < 9223372037 ->
        D (New t0 cfg) = Interval cfg * time.Second)).
Proof.
  split.
  - intros H0. unfold New. rewrite H0. cbn [Z.eqb Interval].
    repeat split.
  - intros Hne. unfold New.
    destruct (Z.eqb_spec (Interval cfg) 0) as [H0 | _]; [contradiction |].
    cbn [newInterval config D]. repeat split.
    intros Hrange. unfold time.Second.
    rewrite (wrap_int64_small (Interval cfg)) by lia.
    apply wrap_int64_small. lia.
Qed.

End Construction.

(** ** The windows of a run *)

Section Windows.

Context `{Engine : StatsEngine} `{Merge : MetricsMerge} `{Plat : Platform}.

Implicit Types (self : Aggregator) (ts : time.Time).

Lemma newInterval_aligned ts self :
  0 < D self -> aligned (newInterval ts self).
Proof.
  intros HD. unfold aligned. cbn. unfold time.Add, time.UTC.
  repeat split; [exact HD |]. now apply Truncate_aligned.
Qed.

Lemma newInterval_contains ts self :
  0 < D self ->
  timeStart (newInterval ts self) = time.Truncate ts (D self) /\
  timeStart (newInterval ts self) <= ts < timeEnd (newInterval ts self) /\
  timeEnd (newInterval ts self) - timeStart (newInterval ts self) = D self.
Proof.
  intros HD. cbn. unfold time.Add, time.UTC.
  pose proof (Truncate_bounds ts (D self) HD). lia.
Qed.

Lemma newInterval_advances ts self :
  aligned self -> timeEnd self <= ts ->
  advances (window self) (window (newInterval ts self)).
Proof.
  intros (HD & Hend & Hmod) Hts. unfold advances, window, TimeStart, TimeEnd.
  cbn. unfold time.Add, time.UTC.
  assert (timeEnd self <= time.Truncate ts (D self)).
  { apply Truncate_above_aligned; [exact HD | | exact Hts].
    rewrite Hend, Z.add_mod, Hmod, Z.mod_same, Z.mod_0_l by lia. reflexivity. }
  lia.
Qed.

(** What one trigger does to an aligned window. *)
Lemma interval_window ts self rep self' :
  aligned self -> interval ts self = (rep, self') ->
  aligned self' /\ D self' = D self /\
  windowStep (window self) (window self') /\
  (forall r, rep = Some r ->
     report.StartTs r = timeStart self /\ report.EndTs r = timeEnd self /\
     timeEnd self <= timeStart self').
Proof.
  intros Hal Hint.
  destruct (Z.lt_ge_cases ts (timeEnd self)) as [Hlt | Hge].
  - rewrite interval_before_end in Hint by exact Hlt.
    injection Hint as <- <-. repeat split; try apply Hal.
    + now left.
    + discriminate.
    + discriminate.
    + discriminate.
  - rewrite interval_at_or_after_end in Hint by exact Hge.
    injection Hint as <- <-.
    pose proof (newInterval_advances ts self Hal Hge) as Hadv.
    split; [apply newInterval_aligned, Hal |].
    split; [reflexivity |]. split; [now right |].
    intros r Hr.
    destruct (Z.of_nat (length (stats_Queries (stats_ self))) =? 0); [discriminate |].
    injection Hr as <-. cbn [report.MakeReport report.StartTs report.EndTs].
    repeat split. apply Hadv.
Qed.

Lemma step_window c self rep self' :
  aligned self -> step c self = (rep, self') ->
  aligned self' /\ D self' = D self /\
  windowStep (window self) (window self') /\
  (forall r, rep = Some r ->
     report.StartTs r = timeStart self /\ report.EndTs r = timeEnd self /\
     timeEnd self <= timeStart self').
Proof.
  intros Hal Hstep. destruct c as [doc | now]; cbn [step] in Hstep.
  - destruct (Z.lt_ge_cases (proto.Ts doc) (timeStart self)) as [Hlt | Hge].
    + rewrite Add_stale in Hstep by exact Hlt.
      injection Hstep as <- <-. repeat split; try apply Hal; try discriminate.
      now left.
    + rewrite Add_not_stale in Hstep by exact Hge.
      destruct (interval (proto.Ts doc) self) as [rep1 self1] eqn:Hint.
      destruct (stats_Add doc (stats_ self1)) as [err st].
      injection Hstep as <- <-.
      apply (interval_window _ _ _ _ Hal) in Hint. exact Hint.
  - now apply (interval_window now).
Qed.

Lemma run_reports calls : forall self reps final,
  aligned self -> run calls self = (reps, final) ->
  aligned final /\ D final = D self /\ timeStart self <= timeStart final /\
  Forall (fun r => timeStart self <= report.StartTs r /\
                   report.EndTs r = report.StartTs r + D self) reps /\
  StronglySorted precedes reps.
Proof.
  induction calls as [| c rest IH]; intros self reps final Hal Hrun.
  - cbn in Hrun. injection Hrun as <- <-.
    repeat split; try apply Hal; try lia; constructor.
  - cbn [run] in Hrun.
    destruct (step c self) as [rep self1] eqn:Hstep.
    destruct (run rest self1) as [reps1 final1] eqn:Hrest.
    injection Hrun as <- <-.
    destruct (step_window c self rep self1 Hal Hstep) as (Hal1 & HD1 & Hw & Hrep).
    destruct (IH self1 reps1 final1 Hal1 Hrest) as (Hfin & HDf & Hle & Hall & Hsorted).
    assert (Hstart : timeStart self <= timeStart self1).
    { destruct Hw as [Heq | Hadv].
      - unfold window, TimeStart in Heq. injection Heq as Heq _. lia.
      - unfold advances, window, TimeStart in Hadv. cbn in Hadv. lia. }
    assert (Hall' : Forall (fun r => timeStart self <= report.StartTs r /\
                              report.EndTs r = report.StartTs r + D self) reps1).
    { eapply List.Forall_impl; [| exact Hall]. cbn. intros r [Hr1 Hr2]. rewrite <- HD1. lia. }
    split; [exact Hfin |]. split; [congruence |]. split; [lia |].
    destruct rep as [r |]; [| split; assumption].
    destruct (Hrep r eq_refl) as (Hs & He & Hnext).
    destruct Hal as (HD & Hend & _).
    split.
    + constructor; [| exact Hall']. lia.
    + constructor; [exact Hsorted |].
      eapply List.Forall_impl; [| exact Hall]. cbn. intros r' [Hr' _].
      unfold precedes. lia.
Qed.

Lemma windowsOf_chain calls : forall self,
  aligned self ->
  Sorted windowStep (window self :: windowsOf calls self) /\
  Forall (fun w => fst w <= snd w /\ snd w - fst w = D self /\ fst w mod D self = 0)
         (window self :: windowsOf calls self).
Proof.
  induction calls as [| c rest IH]; intros self Hal.
  - cbn. split.
    + repeat constructor.
    + constructor; [| constructor]. destruct Hal as (HD & Hend & Hmod).
      unfold window, TimeStart, TimeEnd. cbn. lia.
  - cbn [windowsOf].
    destruct (step c self) as [rep self1] eqn:Hstep. cbn [snd].
    destruct (step_window c self rep self1 Hal Hstep) as (Hal1 & HD1 & Hw & _).
    destruct (IH self1 Hal1) as [Hs Hf]. split.
    + constructor; [exact Hs |]. constructor. exact Hw.
    + constructor.
      * destruct Hal as (HD & Hend & Hmod).
        unfold window, TimeStart, TimeEnd. cbn. lia.
      * rewrite <- HD1. exact Hf.
Qed.

(** C5: for a positive duration [d], the window after construction and
    after every [Add] or [Report] call has its start at or before its end,
    has length [d] and starts at a multiple of [d]; construction puts the
    start at the truncation of the initial instant, and every window
    established at an instant [ts] starts at [s = Truncate ts d] with
    [s <= ts < s + d].  From one call to the next the window either stays
    or advances to a window that starts at or after the end of the previous
    one, and it advances whenever a trigger rotates it; the reports returned
    during a run have strictly increasing, non-overlapping windows: no
    window is reported twice or after a later one. *)
Theorem windows_aligned_and_increasing t0 cfg calls :
  0 < D (New t0 cfg) ->
  let d := D (New t0 cfg) in
  let a0 := New t0 cfg in
  window a0 = (time.Truncate t0 d, time.Truncate t0 d + d) /\
  (forall ts self, D self = d ->
     window (newInterval ts self) = (time.Truncate ts d, time.Truncate ts d + d) /\
     time.Truncate ts d <= ts < time.Truncate ts d + d) /\
  Forall (fun w => fst w <= snd w /\ snd w - fst w = d /\ fst w mod d = 0)
         (window a0 :: windowsOf calls a0) /\
  Sorted windowStep (window a0 :: windowsOf calls a0) /\
  (forall ts self, aligned self -> timeEnd self <= ts ->
     advances (window self) (window (snd (interval ts self)))) /\
  StronglySorted precedes (fst (run calls a0)) /\
  Forall (fun r => report.StartTs r < report.EndTs r /\
                   report.EndTs r - report.StartTs r = d) (fst (run calls a0)).
Proof.
  intros HD d a0.
  assert (Hal : aligned a0).
  { unfold a0, New. apply newInterval_aligned. exact HD. }
  destruct (windowsOf_chain calls a0 Hal) as [Hchain Hall].
  destruct (run calls a0) as [reps final] eqn:Hrun.
  destruct (run_reports calls a0 reps final Hal Hrun) as (_ & _ & _ & Hreps & Hsorted).
  split; [reflexivity |].
  split.
  { intros ts self Hd. fold d in HD. rewrite <- Hd in HD |- *.
    destruct (newInterval_contains ts self HD) as (Hs & Hin & _).
    split; [reflexivity |]. rewrite <- Hs. exact Hin. }
  split; [exact Hall |]. split; [exact Hchain |].
  split.
  { intros ts self Hself Hts. rewrite interval_at_or_after_end by exact Hts.
    now apply newInterval_advances. }
  split; [exact Hsorted |].
  cbn [fst]. eapply List.Forall_impl; [| exact Hreps]. cbv beta. intros r [_ Hr].
  fold d in HD. change (D a0) with d in Hr. lia.
Qed.

End Windows.

(** ** The result builder *)

Section ResultBuilder.

Context `{Engine : StatsEngine} `{Merge : MetricsMerge} `{Plat : Platform}.

Lemma fold_addQuery ex qs : forall g cs,
  fold_left (addQuery ex) qs (g, cs) =
    (fold_left AddClass (map (newClassOf ex) qs) g, cs ++ map (newClassOf ex) qs).
Proof.
  induction qs as [| q qs IH]; intros g cs; cbn [fold_left map].
  - now rewrite app_nil_r.
  - unfold addQuery at 2. cbn [fst snd]. rewrite IH.
    now rewrite <- app_assoc.
Qed.

Lemma buildResult_eq cfg queries :
  let classes :=
    map (newClassOf (ExampleQueries cfg))
        (CalcQueriesStats queries (wrap_int64 (Interval cfg))) in
  buildResult cfg queries =
    {| report.Global :=
         fold_left AddClass classes (event.NewClass EmptyString EmptyString false);
       report.Class_ := classes |}.
Proof. cbv zeta. unfold buildResult. now rewrite fold_addQuery. Qed.

Lemma fold_AddClass_keeps cs : forall g,
  event.Id (fold_left AddClass cs g) = event.Id g /\
  event.Fingerprint (fold_left AddClass cs g) = event.Fingerprint g /\
  event.sample (fold_left AddClass cs g) = event.sample g.
Proof.
  induction cs as [| c cs IH]; intros g; cbn [fold_left]; [auto |].
  destruct (IH (AddClass g c)) as (-> & -> & ->). auto.
Qed.

Lemma fold_AddClass_no_example cs : forall g,
  event.Example_ (fold_left AddClass cs g) =
    match cs with [] => event.Example_ g | _ :: _ => None end.
Proof.
  induction cs as [| c cs IH]; intros g; cbn [fold_left]; [reflexivity |].
  rewrite IH. destruct cs; reflexivity.
Qed.

Lemma Forall2_map_self {A B} (f : A -> B) (P : A -> B -> Prop) (l : list A) :
  (forall x, P x (f x)) -> Forall2 P l (map f l).
Proof. intros HP. induction l; cbn; constructor; auto. Qed.

(** C6, as the code has it: in the built result the [Query_time] metric
    of every class holds the statistics of the query time each divided by
    1000 in [float64] arithmetic; nothing is truncated to an integer.  The
    inputs 120000, 1000 and 5000 give 120, 1 and 5, and 1500 gives 1.5. *)
Theorem latency_divided_by_1000_in_float64 self :
  Forall2
    (fun q c =>
       event.TimeMetrics (event.Metrics_ c) !! "Query_time"%string =
         Some {| event.TimeStats.Sum := (stats.Total (stats.QueryTime q) / 1000)%float;
                 event.TimeStats.Min := (stats.Min (stats.QueryTime q) / 1000)%float;
                 event.TimeStats.Avg := (stats.Avg (stats.QueryTime q) / 1000)%float;
                 event.TimeStats.Med := (stats.Median (stats.QueryTime q) / 1000)%float;
                 event.TimeStats.P95 := (stats.Pct95 (stats.QueryTime q) / 1000)%float;
                 event.TimeStats.Max := (stats.Max (stats.QueryTime q) / 1000)%float |})
    (CalcQueriesStats (stats_Queries (stats_ self)) (wrap_int64 (Interval (config self))))
    (report.Class_ (createResult self)) /\
  (120000 / 1000 = 120 /\ 1000 / 1000 = 1 /\ 5000 / 1000 = 5 /\
   1500 / 1000 = 1.5)%float.
Proof.
  split; [| repeat split].
  unfold createResult. rewrite buildResult_eq. cbn [report.Class_].
  apply Forall2_map_self. intros q. cbn [newClassOf event.Metrics_ event.TimeMetrics].
  now rewrite lookup_insert_eq.
Qed.

(** C7, as the code has it: in the built result the metrics [Bytes_sent],
    [Rows_sent] and [Rows_examined] of every class are the statistics of
    the response length, of the documents returned and of the documents
    scanned, converted from [float64] to [uint64] with no change of unit: a
    statistic whose integer part is a [uint64] yields that integer part, on
    every platform.  Nothing is clamped: for a statistic with a negative
    integer part the result is the one the platform gives to the
    conversion. *)
Theorem number_metrics_converted_not_scaled self :
  Forall2
    (fun q c =>
       event.NumberMetrics (event.Metrics_ c) !! "Bytes_sent"%string =
         Some (newEventNumberStats (stats.ResponseLength q)) /\
       event.NumberMetrics (event.Metrics_ c) !! "Rows_sent"%string =
         Some (newEventNumberStats (stats.Returned q)) /\
       event.NumberMetrics (event.Metrics_ c) !! "Rows_examined"%string =
         Some (newEventNumberStats (stats.Scanned q)))
    (CalcQueriesStats (stats_Queries (stats_ self)) (wrap_int64 (Interval (config self))))
    (report.Class_ (createResult self)) /\
  (forall s,
     converts (stats.Total s) (event.NumberStats.Sum (newEventNumberStats s)) /\
     converts (stats.Min s) (event.NumberStats.Min (newEventNumberStats s)) /\
     converts (stats.Avg s) (event.NumberStats.Avg (newEventNumberStats s)) /\
     converts (stats.Median s) (event.NumberStats.Med (newEventNumberStats s)) /\
     converts (stats.Pct95 s) (event.NumberStats.P95 (newEventNumberStats s)) /\
     converts (stats.Max s) (event.NumberStats.Max (newEventNumberStats s))) /\
  (forall x z, float64_trunc x = Some z -> z < 0 ->
     uint64_of_float64 x = uint64_unrepresentable x).
Proof.
  assert (Hconv : forall x, converts x (uint64_of_float64 x)).
  { intros x z Hz Hrange. unfold uint64_of_float64. rewrite Hz.
    destruct (Z.leb_spec 0 z); [| lia]. destruct (Z.ltb_spec z (2 ^ 64)); [| lia].
    reflexivity. }
  split.
  - unfold createResult. rewrite buildResult_eq. cbn [report.Class_].
    apply Forall2_map_self. intros q.
    cbn [newClassOf event.Metrics_ event.NumberMetrics].
    repeat split.
  - split.
    + intros s. cbn. repeat split; apply Hconv.
    + intros x z Hz Hneg. unfold uint64_of_float64. rewrite Hz.
      destruct (Z.leb_spec 0 z); [lia | reflexivity].
Qed.

(** C10: in every built result the global class has an empty id, an empty
    fingerprint and sampling disabled, and it carries no example: its
    example is nil as soon as one class was added, and the empty example it
    was created with otherwise, so its example query is never set.  With
    example queries enabled every class of the result carries the example
    of its query all the same. *)
Theorem global_class_has_no_example self :
  let r := createResult self in
  event.Id (report.Global r) = EmptyString /\
  event.Fingerprint (report.Global r) = EmptyString /\
  event.sample (report.Global r) = false /\
  (report.Class_ r <> [] -> event.Example_ (report.Global r) = None) /\
  (event.Example_ (report.Global r) = None \/
   event.Example_ (report.Global r) = Some event.zeroExample) /\
  (ExampleQueries (config self) = true ->
   Forall2
     (fun q c =>
        event.Example_ c =
          Some {| event.QueryTime := stats.Total (stats.QueryTime q);
                  event.Db := exampleDb (stats.Namespace q);
                  event.Query := stats.Query q;
                  event.Size := 0;
                  event.ExampleTs := EmptyString |})
     (CalcQueriesStats (stats_Queries (stats_ self)) (wrap_int64 (Interval (config self))))
     (report.Class_ r)).
Proof.
  cbv zeta. unfold createResult. rewrite buildResult_eq.
  cbn [report.Global report.Class_].
  set (classes := map _ _).
  destruct (fold_AddClass_keeps classes (event.NewClass EmptyString EmptyString false))
    as (Hid & Hfp & Hsample).
  rewrite Hid, Hfp, Hsample, fold_AddClass_no_example.
  repeat split.
  - intros Hne. destruct classes; [contradiction | reflexivity].
  - destruct classes; [right | left]; reflexivity.
  - intros Hex. subst classes. apply Forall2_map_self. intros q.
    unfold newClassOf. rewrite Hex. reflexivity.
Qed.

End ResultBuilder.

(** ** The lock *)

Section Locking.

Context `{Engine : StatsEngine} `{Merge : MetricsMerge} `{Plat : Platform}.

Implicit Types (self : Aggregator) (m : concurrent.Shared).

Lemma newInterval_guarded ts k :
  concurrent.guarded true k -> concurrent.guarded true (concurrent.newInterval ts k).
Proof. intros Hk. cbn. auto 10. Qed.

Lemma interval_guarded ts k :
  (forall rep, concurrent.guarded true (k rep)) ->
  concurrent.guarded true (concurrent.interval ts k).
Proof.
  intros Hk. cbn. split; [reflexivity |]. intros e.
  destruct (time.Before ts e); [apply Hk |].
  split; [reflexivity |]. intros queries.
  destruct (Z.of_nat (length queries) =? 0).
  - apply newInterval_guarded, Hk.
  - cbn. repeat (split; [reflexivity |]; intros ?).
    apply (newInterval_guarded ts), Hk.
Qed.

(** [Add] and [Report] touch the aggregator only between [Lock] and
    [Unlock]. *)
Lemma Add_guarded doc : concurrent.guarded false (concurrent.Add doc).
Proof.
  cbn -[concurrent.interval]. split; [reflexivity |]. split; [reflexivity |].
  intros s. destruct (time.Before _ s); [cbn; auto |].
  apply interval_guarded. intros rep. cbn. auto.
Qed.

Lemma Report_guarded now : concurrent.guarded false (concurrent.Report now).
Proof.
  cbn -[concurrent.interval]. split; [reflexivity |].
  apply interval_guarded. intros rep. cbn. auto.
Qed.

(** A call that respects the discipline waits while another goroutine
    holds the mutex. *)
Lemma guarded_waits p m :
  concurrent.guarded false p -> concurrent.locked m = true ->
  concurrent.exec1 p m = None.
Proof.
  intros Hg Hl. destruct p; cbn in Hg |- *; try (destruct Hg; discriminate).
  - reflexivity.
  - now rewrite Hl.
Qed.

(** The accessors load their field without the mutex, so they go through
    while another goroutine holds it. *)
Lemma accessors_not_guarded :
  ~ concurrent.guarded false concurrent.TimeStart /\
  ~ concurrent.guarded false concurrent.TimeEnd /\
  (forall m, concurrent.exec1 concurrent.TimeStart m =
               Some (concurrent.Return (concurrent.VTime (timeStart (concurrent.object m))), m)) /\
  (forall m, concurrent.exec1 concurrent.TimeEnd m =
               Some (concurrent.Return (concurrent.VTime (timeEnd (concurrent.object m))), m)).
Proof.
  repeat split; try (intros [Hh _]; discriminate Hh).
Qed.

Lemma execAlone_step n p m p' m' :
  concurrent.exec1 p m = Some (p', m') ->
  concurrent.execAlone (S n) p m = concurrent.execAlone n p' m'.
Proof.
  intros Hstep. destruct p; cbn [concurrent.execAlone]; try (now rewrite Hstep).
  discriminate Hstep.
Qed.

(** One action of the program under execution. *)
Ltac action :=
  erewrite execAlone_step by (cbn [concurrent.exec1 concurrent.locked]; reflexivity);
  cbv beta;
  cbn [concurrent.object concurrent.locked concurrent.setObject
       config timeStart timeEnd D stats_].

(** Run alone, the actions of a method compute what its functional
    embedding computes. *)
Lemma newInterval_alone n ts k self l :
  concurrent.execAlone (6 + n) (concurrent.newInterval ts k)
    {| concurrent.object := self; concurrent.locked := l |} =
  concurrent.execAlone n k
    {| concurrent.object := newInterval ts self; concurrent.locked := l |}.
Proof.
  destruct self as [cfg s e d st]. unfold concurrent.newInterval.
  cbn [Nat.add]. do 6 action. reflexivity.
Qed.

Lemma interval_alone n ts k self l :
  concurrent.execAlone (13 + n) (concurrent.interval ts k)
    {| concurrent.object := self; concurrent.locked := l |} =
  concurrent.execAlone
    (n + (if time.Before ts (timeEnd self) then 12
          else if Z.of_nat (length (stats_Queries (stats_ self))) =? 0 then 5
          else 0))
    (k (fst (interval ts self)))
    {| concurrent.object := snd (interval ts self); concurrent.locked := l |}.
Proof.
  destruct self as [cfg s e d st]. unfold concurrent.interval, interval.
  cbn [Nat.add timeEnd stats_]. action.
  destruct (time.Before ts e).
  - cbn [fst snd]. f_equal. lia.
  - action.
    destruct (Z.of_nat (length (stats_Queries st)) =? 0); cbn [fst snd].
    + change (S (S (S (S (S (S (S (S (S (S (S n)))))))))))%nat with (6 + (5 + n))%nat.
      rewrite newInterval_alone. f_equal. lia.
    + unfold concurrent.createResult. do 5 action.
      change (S (S (S (S (S (S n))))))%nat with (6 + n)%nat.
      rewrite newInterval_alone. f_equal. lia.
Qed.

Lemma Report_alone now self :
  concurrent.execAlone 20 (concurrent.Report now)
    {| concurrent.object := self; concurrent.locked := false |} =
  Some (concurrent.VReport (fst (Report now self)),
        {| concurrent.object := snd (Report now self); concurrent.locked := false |}).
Proof.
  unfold concurrent.Report, Report. action.
  change 19%nat with (13 + 6)%nat. rewrite interval_alone.
  cbn [Nat.add]. action. reflexivity.
Qed.

Lemma Add_alone doc self :
  concurrent.execAlone 20 (concurrent.Add doc)
    {| concurrent.object := self; concurrent.locked := false |} =
  Some (concurrent.VAdd (fst (fst (Add doc self))) (snd (fst (Add doc self))),
        {| concurrent.object := snd (Add doc self); concurrent.locked := false |}).
Proof.
  unfold concurrent.Add, Add. do 2 action.
  destruct (time.Before (time.UTC (proto.Ts doc)) (timeStart self)).
  - action. reflexivity.
  - change 18%nat with (13 + 5)%nat. rewrite interval_alone.
    destruct (interval (time.UTC (proto.Ts doc)) self) as [rep self1].
    cbn [Nat.add fst snd].
    destruct (stats_Add doc (stats_ self1)) as [err st] eqn:Hadd.
    erewrite execAlone_step
      by (cbn [concurrent.exec1 concurrent.object]; rewrite Hadd; reflexivity).
    action. reflexivity.
Qed.

(** While [Report] rotates an empty window, a reader that calls the two
    accessors between the store of [timeStart] and the store of [timeEnd]
    gets the start of the new window with the end of the old one. *)
Lemma reader_between_the_stores now self :
  timeEnd self <= now ->
  stats_Queries (stats_ self) = [] ->
  nth_error
    (fst (concurrent.execSchedule [0; 0; 0; 0; 0; 0; 1; 1]%nat
            [concurrent.Report now; concurrent.readWindow]
            {| concurrent.object := self; concurrent.locked := false |})) 1 =
  Some (concurrent.Return
          (concurrent.VWindow (time.Truncate now (D self)) (timeEnd self))).
Proof.
  intros Hend Hempty. destruct self as [cfg s e d st]. cbn in Hend, Hempty.
  assert (Hb : time.Before now e = false) by (apply Z.ltb_ge; exact Hend).
  unfold concurrent.Report, concurrent.interval, concurrent.readWindow.
  cbn [concurrent.execSchedule concurrent.execPool nth_error concurrent.exec1
       concurrent.setNth concurrent.locked concurrent.object timeEnd stats_].
  rewrite Hb.
  cbn [concurrent.execSchedule concurrent.execPool nth_error concurrent.exec1
       concurrent.setNth concurrent.locked concurrent.object timeEnd stats_].
  rewrite Hempty. cbn [length Z.of_nat Z.eqb]. unfold concurrent.newInterval.
  cbn [concurrent.execSchedule concurrent.execPool nth_error concurrent.exec1
       concurrent.setNth concurrent.locked concurrent.object concurrent.setObject
       config timeStart timeEnd D stats_ fst].
  reflexivity.
Qed.



(** *** Calls do not interleave *)

Lemma inside_newInterval ts k :
  concurrent.inside k -> concurrent.inside (concurrent.newInterval ts k).
Proof. intros Hk. cbn. auto. Qed.

Lemma inside_interval ts k :
  (forall rep, concurrent.inside (k rep)) ->
  concurrent.inside (concurrent.interval ts k).
Proof.
  intros Hk. cbn -[concurrent.newInterval]. intros e.
  destruct (time.Before ts e); [apply Hk |].
  cbn -[concurrent.newInterval]. intros queries.
  destruct (Z.of_nat (length queries) =? 0).
  - apply inside_newInterval, Hk.
  - cbn -[concurrent.newInterval]. intros q c c0 t t0.
    apply inside_newInterval, Hk.
Qed.

Lemma progOf_locks c :
  exists k, concurrent.progOf c = concurrent.Lock k /\ concurrent.inside k.
Proof.
  destruct c as [doc | now]; cbn [concurrent.progOf].
  - eexists. split; [reflexivity |]. cbn -[concurrent.interval]. intros s.
    destruct (time.Before _ s); [cbn; eauto |].
    apply inside_interval. intros rep. cbn. eauto.
  - eexists. split; [reflexivity |].
    apply inside_interval. intros rep. cbn. eauto.
Qed.

Lemma inside_step p m p' m' :
  concurrent.inside p -> concurrent.locked m = true ->
  concurrent.exec1 p m = Some (p', m') ->
  (concurrent.inside p' /\ concurrent.locked m' = true) \/
  (exists v, p' = concurrent.Return v /\ concurrent.locked m' = false).
Proof.
  intros Hin Hl Hstep.
  destruct p; cbn in Hin, Hstep; try contradiction;
    try (injection Hstep as <- <-; left; split; [auto | exact Hl]).
  - rewrite Hl in Hstep. injection Hstep as <- <-. right.
    destruct Hin as [v ->]. eauto.
  - destruct (stats_Add doc (stats_ (concurrent.object m))) as [err st].
    injection Hstep as <- <-. left. split; [apply Hin | exact Hl].
Qed.

Lemma execAlone_inv n p m r :
  concurrent.inside p -> concurrent.execAlone n p m = Some r ->
  exists n' p' m', n = S n' /\ concurrent.exec1 p m = Some (p', m') /\
                   concurrent.execAlone n' p' m' = Some r.
Proof.
  intros Hin Hrun. destruct n as [| n'].
  - destruct p; cbn in Hin, Hrun; try contradiction; discriminate.
  - destruct (concurrent.exec1 p m) as [[p' m'] |] eqn:Hstep.
    + exists n', p', m'. rewrite (execAlone_step _ _ _ _ _ Hstep) in Hrun. auto.
    + destruct p; cbn in Hin; try contradiction;
        cbn [concurrent.execAlone] in Hrun; rewrite Hstep in Hrun; discriminate.
Qed.

Lemma call_alone c self :
  exists v,
    concurrent.execAlone 20 (concurrent.progOf c)
      {| concurrent.object := self; concurrent.locked := false |} =
    Some (v, {| concurrent.object := snd (step c self); concurrent.locked := false |}).
Proof.
  destruct c as [doc | now]; cbn [concurrent.progOf step].
  - rewrite Add_alone. destruct (Add doc self) as [[rep err] self']. eauto.
  - rewrite Report_alone. eauto.
Qed.

Lemma run_snoc pre c : forall self,
  snd (run (pre ++ [c]) self) = snd (step c (snd (run pre self))).
Proof.
  induction pre as [| c0 pre IH]; intros self; cbn [app run snd].
  - destruct (step c self) as [rep self']. reflexivity.
  - destruct (step c0 self) as [rep0 self0]. specialize (IH self0).
    destruct (run (pre ++ [c]) self0) as [reps1 final1].
    destruct (run pre self0) as [reps2 final2]. exact IH.
Qed.

Lemma nth_error_setNth_eq i p : forall pool,
  (i < length pool)%nat -> nth_error (concurrent.setNth i p pool) i = Some p.
Proof.
  induction i as [| i IH]; intros [| q pool] Hlt; cbn in Hlt |- *; try lia.
  - reflexivity.
  - apply IH. lia.
Qed.

Lemma nth_error_setNth_ne i j p : forall pool,
  i <> j -> nth_error (concurrent.setNth i p pool) j = nth_error pool j.
Proof.
  revert j. induction i as [| i IH]; intros [| j] [| q pool] Hne; cbn; try reflexivity.
  - contradiction.
  - apply IH. congruence.
Qed.

Lemma setNth_setNth i p q : forall pool,
  concurrent.setNth i q (concurrent.setNth i p pool) = concurrent.setNth i q pool.
Proof.
  induction i as [| i IH]; intros [| r pool]; cbn; try reflexivity.
  now rewrite IH.
Qed.

Lemma length_setNth i p : forall pool,
  length (concurrent.setNth i p pool) = length pool.
Proof.
  induction i as [| i IH]; intros [| r pool]; cbn; try reflexivity.
  now rewrite IH.
Qed.

Lemma idle_setNth i p : forall cs pool c,
  Forall2 concurrent.idle cs pool -> nth_error cs i = Some c ->
  concurrent.idle c p ->
  Forall2 concurrent.idle cs (concurrent.setNth i p pool).
Proof.
  induction i as [| i IH]; intros cs pool c Hall Hc Hp;
    destruct Hall as [| c0 q cs pool H0 Hall]; cbn in Hc |- *; try discriminate.
  - injection Hc as ->. constructor; assumption.
  - constructor; [assumption |]. eapply IH; eassumption.
Qed.

Lemma idle_nth cs pool j p :
  Forall2 concurrent.idle cs pool -> nth_error pool j = Some p ->
  exists c, nth_error cs j = Some c /\ concurrent.idle c p.
Proof.
  intros Hall. revert j. induction Hall as [| c0 q cs pool H0 Hall IH];
    intros [| j] Hj; cbn in Hj |- *; try discriminate.
  - injection Hj as ->. eauto.
  - apply IH. exact Hj.
Qed.


Lemma serial_step cs a0 j pool m pool' m' :
  concurrent.serial cs a0 pool m ->
  concurrent.execPool j pool m = (pool', m') ->
  concurrent.serial cs a0 pool' m'.
Proof.
  intros Hser Hpool. unfold concurrent.execPool in Hpool.
  destruct (nth_error pool j) as [p |] eqn:Hj; [| now injection Hpool as <- <-].
  destruct (concurrent.exec1 p m) as [[p1 m1] |] eqn:Hstep;
    [| now injection Hpool as <- <-].
  injection Hpool as <- <-.
  destruct Hser as (done & Hdone & [(Hl & Hobj & Hidle) | (Hl & Hflight)]).
  - (* the mutex is free: the goroutine starts its call *)
    destruct (idle_nth cs pool j p Hidle Hj) as (c & Hc & [-> | [v ->]]);
      [| discriminate Hstep].
    destruct (progOf_locks c) as (k & Hk & Hin).
    destruct (call_alone c (concurrent.object m)) as [v Halone].
    rewrite Hk in Hstep, Halone. destruct m as [self l]. cbn in Hl, Hobj. subst l.
    cbn in Hstep. injection Hstep as <- <-. cbn [concurrent.object] in Halone.
    rewrite (execAlone_step 19 (concurrent.Lock k)
               {| concurrent.object := self; concurrent.locked := false |} k
               {| concurrent.object := self; concurrent.locked := true |} eq_refl)
      in Halone.
    exists (done ++ [c]). split.
    + apply Forall_app. split; [exact Hdone |].
      constructor; [| constructor]. eapply nth_error_In, Hc.
    + right. split; [reflexivity |].
      exists j, k, pool, c, done, 19%nat, v.
      cbn [concurrent.object] in Halone. subst self.
      exact (conj eq_refl (conj Hc (conj Hidle (conj eq_refl (conj Hin Halone))))).
  - (* the mutex is held: only the goroutine inside its call moves *)
    destruct Hflight as (i & p0 & pool0 & c & pre & n & v &
                         -> & Hc & Hidle & -> & Hin & Halone).
    assert (Hi : (i < length pool0)%nat).
    { rewrite <- (Forall2_length _ _ _ Hidle). apply nth_error_Some. congruence. }
    destruct (Nat.eq_dec i j) as [<- | Hne].
    + rewrite nth_error_setNth_eq in Hj by exact Hi. injection Hj as <-.
      destruct (execAlone_inv n p0 m _ Hin Halone) as (n' & p2 & m2 & -> & Hstep2 & Hrest).
      rewrite Hstep in Hstep2. injection Hstep2 as <- <-.
      rewrite setNth_setNth.
      exists (pre ++ [c]). split; [exact Hdone |].
      destruct (inside_step _ _ _ _ Hin Hl Hstep) as [[Hin1 Hl1] | (v1 & -> & Hl1)].
      * right. split; [exact Hl1 |].
        exists i, p1, pool0, c, pre, n', v.
        exact (conj eq_refl (conj Hc (conj Hidle (conj eq_refl (conj Hin1 Hrest))))).
      * left.
        assert (Hm1 : m1 = {| concurrent.object := snd (step c (snd (run pre a0)));
                              concurrent.locked := false |}).
        { destruct n'; cbn [concurrent.execAlone] in Hrest; now injection Hrest. }
        subst m1. split; [reflexivity |]. split.
        -- cbn [concurrent.object]. now rewrite run_snoc.
        -- eapply idle_setNth; [exact Hidle | exact Hc |]. right. eauto.
    + rewrite nth_error_setNth_ne in Hj by exact Hne.
      destruct (idle_nth cs pool0 j p Hidle Hj) as (c' & _ & [-> | [v' ->]]);
        [| discriminate Hstep].
      destruct (progOf_locks c') as (k & Hk & _). rewrite Hk in Hstep.
      cbn in Hstep. rewrite Hl in Hstep. discriminate Hstep.
Qed.

(** Whatever the schedule, the calls of [Add] and [Report] made by the
    goroutines of a pool do not interleave: whenever the mutex is free, the
    aggregator is in the state that some of these calls, run one after the
    other, lead to. *)
Lemma calls_do_not_interleave cs a0 schedule :
  let '(pool, m) :=
    concurrent.execSchedule schedule (map concurrent.progOf cs)
      {| concurrent.object := a0; concurrent.locked := false |} in
  concurrent.locked m = false ->
  exists done,
    Forall (fun c => In c cs) done /\ concurrent.object m = snd (run done a0).
Proof.
  assert (Hinit : concurrent.serial cs a0 (map concurrent.progOf cs)
                    {| concurrent.object := a0; concurrent.locked := false |}).
  { exists []. split; [constructor |]. left. repeat split.
    induction cs; cbn; constructor; [now left | assumption]. }
  revert Hinit.
  generalize (map concurrent.progOf cs)
             {| concurrent.object := a0; concurrent.locked := false |}.
  induction schedule as [| j rest IH]; intros pool m Hser; cbn [concurrent.execSchedule].
  - intros Hl. destruct Hser as (done & Hdone & [(_ & Hobj & _) | (Hl' & _)]).
    + eauto.
    + congruence.
  - destruct (concurrent.execPool j pool m) as [pool' m'] eqn:Hpool.
    apply IH. eapply serial_step; eassumption.
Qed.

End Locking.

(** ** The aggregator at work *)

Section Examples.

#[local] Existing Instance sample.engine.
#[local] Existing Instance sample.merge.
#[local] Existing Instance amd64.

Example start_window :
  window sample.start = (sample.clock 12 15 0, sample.clock 12 16 0).
Proof. vm_compute. reflexivity. Qed.

Example first_query_no_report :
  fst (Add sample.q1 sample.start) = (None, None) /\
  TimeEnd sample.afterQ1 = sample.clock 12 16 0.
Proof. vm_compute. split; reflexivity. Qed.

Example second_query_reports_first_window :
  exists r,
    fst (Add sample.q2 sample.afterQ1) = (Some r, None) /\
    report.StartTs r = sample.clock 12 15 0 /\
    report.EndTs r = sample.clock 12 16 0 /\
    map event.Id (report.Class_ (report.ReportResult r)) = ["shop.orders"%string] /\
    window sample.afterQ2 = (sample.clock 12 16 0, sample.clock 12 17 0) /\
    map sample.Namespace (stats_ sample.afterQ2) = ["shop.users"%string].
Proof. eexists. vm_compute. repeat split. Qed.

Example run_of_the_scenario :
  map (fun r => (report.StartTs r, report.EndTs r,
                 map event.Id (report.Class_ (report.ReportResult r))))
      (fst (run sample.calls sample.start)) =
    [(sample.clock 12 15 0, sample.clock 12 16 0, ["shop.orders"%string]);
     (sample.clock 12 16 0, sample.clock 12 17 0, ["shop.users"%string])] /\
  windowsOf sample.calls sample.start =
    [(sample.clock 12 15 0, sample.clock 12 16 0);
     (sample.clock 12 16 0, sample.clock 12 17 0);
     (sample.clock 12 16 0, sample.clock 12 17 0);
     (sample.clock 12 20 0, sample.clock 12 21 0);
     (sample.clock 12 20 0, sample.clock 12 21 0)].
Proof. vm_compute. split; reflexivity. Qed.

Example report_on_empty_window :
  Report (sample.clock 12 20 10) sample.start =
    (None, newInterval (sample.clock 12 20 10) sample.start) /\
  window (snd (Report (sample.clock 12 20 10) sample.start)) =
    (sample.clock 12 20 0, sample.clock 12 21 0).
Proof. vm_compute. split; reflexivity. Qed.

Example database_of_namespace :
  exampleDb "shop.orders.archive" = "shop"%string /\
  exampleDb "orders" = EmptyString /\
  exampleDb EmptyString = EmptyString /\
  exampleDb ".orders" = EmptyString.
Proof. repeat split. Qed.

Example conversion_examples :
  uint64_of_float64 100 = 100 /\ uint64_of_float64 2.5 = 2 /\
  uint64_of_float64 (-0.5) = 0 /\
  uint64_of_float64 (-1) = 18446744073709551615 /\
  uint64_of_float64 nan = 9223372036854775808.
Proof. vm_compute. repeat split. Qed.

(** The claim C6 read literally fails: a total query time of 1500 gives
    the latency sum 1.5, not the truncated quotient 1, in the statistics
    and in the result built from the first query of the scenario. *)
Lemma latency_not_truncated :
  stats.Total sample.slow = float64_of_Z 1500 /\
  event.TimeStats.Sum (newEventTimeStatsInMilliseconds sample.slow) = 1.5%float /\
  event.TimeStats.Sum (newEventTimeStatsInMilliseconds sample.slow) <>
    float64_of_Z (truncatingDivision1000 1500) /\
  map (fun c => event.TimeStats.Sum <$>
                  event.TimeMetrics (event.Metrics_ c) !! "Query_time"%string)
      (report.Class_ (createResult sample.afterQ1)) = [Some 1.5%float].
Proof.
  split; [vm_compute; reflexivity |].
  split; [vm_compute; reflexivity |].
  split; [| vm_compute; reflexivity].
  intros Heq.
  assert (Hb : PrimFloat.eqb
                 (event.TimeStats.Sum (newEventTimeStatsInMilliseconds sample.slow))
                 (float64_of_Z (truncatingDivision1000 1500)) = true).
  { rewrite Heq. vm_compute. reflexivity. }
  vm_compute in Hb. discriminate Hb.
Qed.

(** The claim C7 read literally fails: a statistic of -1 is not clamped to
    zero; on amd64 its conversion is 18446744073709551615. *)
Lemma negative_statistic_not_clamped :
  stats.Total sample.negative = (-1)%float /\
  event.NumberStats.Sum (newEventNumberStats sample.negative) = 18446744073709551615 /\
  event.NumberStats.Sum (newEventNumberStats sample.negative) <> 0.
Proof.
  split; [vm_compute; reflexivity |].
  split; [vm_compute; reflexivity |].
  vm_compute. discriminate.
Qed.

Lemma Add_drops_stale_event_witness :
  proto.Ts sample.late < timeStart sample.afterQ2 /\
  Add sample.late sample.afterQ2 = (None, None, sample.afterQ2).
Proof.
  split; [vm_compute; reflexivity |].
  apply Add_drops_stale_event. vm_compute. reflexivity.
Defined.

Lemma Add_rotates_before_accumulating_witness :
  timeStart sample.afterQ1 <= proto.Ts sample.q2 /\
  timeEnd sample.afterQ1 <= proto.Ts sample.q2 /\
  timeStart (snd (Add sample.q2 sample.afterQ1)) = sample.clock 12 16 0 /\
  timeEnd (snd (Add sample.q2 sample.afterQ1)) = sample.clock 12 17 0 /\
  (exists r,
     fst (fst (Add sample.q2 sample.afterQ1)) = Some r /\
     report.StartTs r = sample.clock 12 15 0 /\
     report.EndTs r = sample.clock 12 16 0) /\
  stats_ (snd (Add sample.q2 sample.afterQ1)) =
    snd (stats_Add sample.q2 (stats_Reset (stats_ sample.afterQ1))).
Proof.
  split; [vm_compute; discriminate |].
  split; [vm_compute; discriminate |].
  pose proof (Add_rotates_before_accumulating sample.q2 sample.afterQ1) as Hrot.
  destruct (Add sample.q2 sample.afterQ1) as [[rep err] self'].
  destruct Hrot as (Hrep & Hs & He & _ & Hst).
  - vm_compute. discriminate.
  - vm_compute. discriminate.
  - cbn [fst snd]. split; [rewrite Hs; vm_compute; reflexivity |].
    split; [rewrite He; vm_compute; reflexivity |]. split.
    + destruct Hrep as (r & Hr & Hrs & Hre & _); [vm_compute; discriminate |].
      exists r. split; [exact Hr |].
      split; [rewrite Hrs | rewrite Hre]; vm_compute; reflexivity.
    + rewrite <- Hst. reflexivity.
Defined.

Lemma rotation_iff_trigger_at_or_after_end_witness :
  interval (sample.clock 12 15 59) sample.afterQ1 = (None, sample.afterQ1) /\
  snd (interval (sample.clock 12 16 0) sample.afterQ1) =
    newInterval (sample.clock 12 16 0) sample.afterQ1 /\
  timeEnd sample.afterQ1 < timeEnd (snd (interval (sample.clock 12 16 0) sample.afterQ1)).
Proof.
  pose proof (rotation_iff_trigger_at_or_after_end (sample.clock 12 15 59) sample.afterQ1)
    as (Hbefore & _).
  pose proof (rotation_iff_trigger_at_or_after_end (sample.clock 12 16 0) sample.afterQ1)
    as (_ & Hafter & _).
  split; [apply Hbefore; vm_compute; reflexivity |].
  destruct Hafter as (Hrot & _ & _ & Hend); [vm_compute; discriminate |].
  split; [exact Hrot |]. apply Hend. vm_compute. reflexivity.
Defined.

Lemma empty_window_rotates_without_report_witness :
  stats_Queries (stats_ sample.start) = [] /\
  timeEnd sample.start <= sample.clock 12 20 10 /\
  0 < D sample.start /\
  fst (Report (sample.clock 12 20 10) sample.start) = None /\
  timeStart (snd (Report (sample.clock 12 20 10) sample.start)) = sample.clock 12 20 0 /\
  timeEnd (snd (Report (sample.clock 12 20 10) sample.start)) = sample.clock 12 21 0 /\
  timeEnd (snd (Report (sample.clock 12 20 10) sample.start)) -
    timeStart (snd (Report (sample.clock 12 20 10) sample.start)) = 60 * time.Second.
Proof.
  split; [reflexivity |].
  split; [vm_compute; discriminate |].
  split; [vm_compute; reflexivity |].
  destruct (empty_window_rotates_without_report (sample.clock 12 20 10) sample.start)
    as (Hrep & _ & _ & _ & Hpos & _); [reflexivity | vm_compute; discriminate |].
  destruct Hpos as (Hs & He & _); [vm_compute; reflexivity |].
  rewrite Hrep. cbn [fst snd]. split; [reflexivity |].
  rewrite Hs, He.
  split; [vm_compute; reflexivity |]. split; vm_compute; reflexivity.
Defined.

Lemma New_applies_both_defaults_witness :
  Interval sample.zeroConfig = 0 /\
  ExampleQueries sample.zeroConfig = false /\
  config (New (sample.clock 12 15 35) sample.zeroConfig) = sample.minuteConfig /\
  New (sample.clock 12 15 35) sample.zeroConfig = sample.start /\
  D (New (sample.clock 12 15 35) sample.zeroConfig) = 60 * time.Second.
Proof.
  split; [reflexivity |]. split; [reflexivity |].
  destruct (New_applies_both_defaults (sample.clock 12 15 35) sample.zeroConfig)
    as [Hzero _].
  destruct Hzero as (Hsame & Hcfg & Hd); [reflexivity |].
  split; [exact Hcfg |]. split; [exact Hsame |]. exact Hd.
Defined.

Lemma windows_aligned_and_increasing_witness :
  0 < D (New (sample.clock 12 15 35) sample.minuteConfig) /\
  Sorted windowStep (window sample.start :: windowsOf sample.calls sample.start) /\
  StronglySorted precedes (fst (run sample.calls sample.start)) /\
  Forall (fun r => report.StartTs r < report.EndTs r /\
                   report.EndTs r - report.StartTs r = 60 * time.Second)
         (fst (run sample.calls sample.start)).
Proof.
  split; [vm_compute; reflexivity |].
  destruct (windows_aligned_and_increasing (sample.clock 12 15 35) sample.minuteConfig
              sample.calls) as (_ & _ & _ & Hchain & _ & Hsorted & Hreps).
  - vm_compute. reflexivity.
  - split; [exact Hchain |]. split; [exact Hsorted |]. exact Hreps.
Defined.

Lemma number_metrics_converted_not_scaled_witness :
  float64_trunc (stats.Total (sample.statisticsOf [100; 250])) = Some 350 /\
  event.NumberStats.Sum (newEventNumberStats (sample.statisticsOf [100; 250])) = 350.
Proof.
  split; [vm_compute; reflexivity |].
  destruct (number_metrics_converted_not_scaled sample.start) as (_ & Hconv & _).
  destruct (Hconv (sample.statisticsOf [100; 250])) as (Hsum & _).
  apply Hsum; [vm_compute; reflexivity | lia].
Defined.

Lemma global_class_has_no_example_witness :
  report.Class_ (createResult sample.afterQ1) <> [] /\
  ExampleQueries (config sample.afterQ1) = true /\
  event.Example_ (report.Global (createResult sample.afterQ1)) = None /\
  map (fun c => event.Query <$> event.Example_ c)
      (report.Class_ (createResult sample.afterQ1)) = [Some "find"%string].
Proof.
  split; [vm_compute; discriminate |].
  split; [reflexivity |].
  destruct (global_class_has_no_example sample.afterQ1) as (_ & _ & _ & Hnone & _).
  split; [apply Hnone; vm_compute; discriminate |].
  vm_compute. reflexivity.
Defined.

(** The claim C1 read literally fails: the stale check comes first.  An
    interval of 9223372037 seconds gives a negative [int64] duration and a
    window that ends before it starts; an event at the end of that window
    is at or after [timeEnd], yet it is before [timeStart]: [Add] drops
    it, the window is not rotated and the event is not accumulated. *)
Lemma wrapped_duration_drops_event :
  let self := New (sample.clock 12 15 35) sample.wrappingConfig in
  let doc := sample.find "shop.orders" "find" (timeEnd self) 10 in
  D self = -9223372036709551616 /\ timeEnd self < timeStart self /\
  timeEnd self <= proto.Ts doc /\
  Add doc self = (None, None, self) /\
  window (snd (Add doc self)) <>
    (time.Truncate (proto.Ts doc) (D self),
     time.Truncate (proto.Ts doc) (D self) + D self) /\
  stats_ (snd (Add doc self)) <> snd (stats_Add doc (stats_Reset (stats_ self))).
Proof.
  cbv zeta. split; [vm_compute; reflexivity |].
  split; [vm_compute; reflexivity |].
  split; [vm_compute; discriminate |].
  split; [vm_compute; reflexivity |].
  split; vm_compute; discriminate.
Qed.

(** C9, second half, on the code: [TimeStart] and [TimeEnd] do not take
    the mutex.  While [Report] rotates the window of the scenario at
    12:17:30, holding the mutex, a reader scheduled between its two stores
    obtains the pair (12:17:00, 12:16:00): the start of the new window with
    the end of the old one, which is neither the window before the call nor
    the window after it.  The same calls made by [Report] finish with the
    result of the functional embedding. *)
Theorem unlocked_reader_sees_torn_window :
  let m0 := {| concurrent.object := sample.afterQ1; concurrent.locked := false |} in
  let pool := [concurrent.Report (sample.clock 12 17 30); concurrent.readWindow] in
  let final :=
    concurrent.execSchedule (repeat 0%nat 11 ++ [1; 1]%nat ++ repeat 0%nat 4) pool m0 in
  concurrent.locked (snd (concurrent.execSchedule (repeat 0%nat 11) pool m0)) = true /\
  fst final =
    [concurrent.Return
       (concurrent.VReport (fst (Report (sample.clock 12 17 30) sample.afterQ1)));
     concurrent.Return
       (concurrent.VWindow (sample.clock 12 17 0) (sample.clock 12 16 0))] /\
  snd final =
    {| concurrent.object := snd (Report (sample.clock 12 17 30) sample.afterQ1);
       concurrent.locked := false |} /\
  window sample.afterQ1 = (sample.clock 12 15 0, sample.clock 12 16 0) /\
  window (snd (Report (sample.clock 12 17 30) sample.afterQ1)) =
    (sample.clock 12 17 0, sample.clock 12 18 0) /\
  ~ concurrent.guarded false concurrent.readWindow.
Proof.
  cbv zeta. split; [vm_compute; reflexivity |].
  split; [vm_compute; reflexivity |].
  split; [vm_compute; reflexivity |].
  split; [vm_compute; reflexivity |].
  split; [vm_compute; reflexivity |].
  intros [Hh _]. discriminate Hh.
Qed.

End Examples.

(** * Further properties *)

(** ** The window and the events *)

Lemma Truncate_unique t d s :
  0 < d -> s mod d = 0 -> s <= t < s + d -> time.Truncate t d = s.
Proof.
  intros Hd Hs Ht. unfold time.Truncate.
  destruct (Z.leb_spec d 0) as [Hle | _]; [lia |].
  apply Z.mod_divide in Hs; [| lia]. destruct Hs as [k ->].
  assert (Hq : t / d = k).
  { symmetry. apply (Z.div_unique_pos t d k (t - k * d)); lia. }
  pose proof (Z.div_mod t d ltac:(lia)) as Hdm. rewrite Hq in Hdm. lia.
Qed.

Section Behaviour.

Context `{Engine : StatsEngine} `{Merge : MetricsMerge} `{Plat : Platform}.

Implicit Types (self : Aggregator) (ts : time.Time) (doc : proto.SystemProfile).

(** X1: an event whose timestamp lies in the current window is handed to
    the engine as it is: [Add] returns no report and the error of the
    engine, and leaves the configuration, the bounds and the duration
    untouched; the engine is not reset. *)
Theorem Add_within_window_accumulates doc self :
  timeStart self <= proto.Ts doc ->
  proto.Ts doc < timeEnd self ->
  Add doc self =
    (None, fst (stats_Add doc (stats_ self)),
     {| config := config self; timeStart := timeStart self;
        timeEnd := timeEnd self; D := D self;
        stats_ := snd (stats_Add doc (stats_ self)) |}).
Proof.
  intros Hstart Hend. rewrite Add_not_stale by exact Hstart.
  rewrite interval_before_end by exact Hend.
  destruct (stats_Add doc (stats_ self)) as [err st]. reflexivity.
Qed.

(** X2: for a positive duration, an event that [Add] accepts (its
    timestamp is not before the start of the window) lies in the window
    that [Add] leaves, whether or not the call rotated. *)
Theorem accepted_event_lies_in_window doc self :
  0 < D self ->
  timeStart self <= proto.Ts doc ->
  timeStart (snd (Add doc self)) <= proto.Ts doc < timeEnd (snd (Add doc self)).
Proof.
  intros HD Hstart. rewrite Add_not_stale by exact Hstart.
  destruct (Z.lt_ge_cases (proto.Ts doc) (timeEnd self)) as [Hlt | Hge].
  - rewrite interval_before_end by exact Hlt.
    destruct (stats_Add doc (stats_ self)) as [err st]. cbn. lia.
  - rewrite interval_at_or_after_end by exact Hge.
    destruct (stats_Add doc (stats_ (newInterval (proto.Ts doc) self))) as [err st].
    cbn. unfold time.Add, time.UTC.
    pose proof (Truncate_bounds (proto.Ts doc) (D self) HD). lia.
Qed.

(** X3: for a positive duration, once a trigger at [ts] has been handled,
    a trigger at [ts] again or at any earlier instant is quiet: [interval]
    and [Report] return no report and change nothing.  In particular two
    [Report] calls with the same clock reading produce at most one
    report. *)
Theorem repeated_trigger_is_quiet ts ts' self :
  0 < D self ->
  ts' <= ts ->
  interval ts' (snd (interval ts self)) = (None, snd (interval ts self)) /\
  Report ts' (snd (Report ts self)) = (None, snd (Report ts self)).
Proof.
  intros HD Hle.
  assert (Hquiet : interval ts' (snd (interval ts self)) = (None, snd (interval ts self))).
  { apply interval_before_end.
    destruct (Z.lt_ge_cases ts (timeEnd self)) as [Hlt | Hge].
    - rewrite interval_before_end by exact Hlt. cbn [snd]. lia.
    - rewrite interval_at_or_after_end by exact Hge. cbn [snd].
      pose proof (newInterval_end_after ts self HD). lia. }
  split; [exact Hquiet |]. unfold Report. exact Hquiet.
Qed.

(** X4: the configuration and the duration never change: after any
    sequence of [Add] and [Report] calls they are those the aggregator
    started with, so that an aggregator made by [New] always has the
    duration of the interval of its configuration. *)
Theorem run_keeps_config_and_duration calls : forall self,
  config (snd (run calls self)) = config self /\
  D (snd (run calls self)) = D self.
Proof.
  induction calls as [| c rest IH]; intros self; cbn [run].
  - split; reflexivity.
  - assert (Hstep : config (snd (step c self)) = config self /\
                    D (snd (step c self)) = D self).
    { destruct c as [doc | now]; cbn [step].
      - unfold Add, interval.
        destruct (time.Before (time.UTC (proto.Ts doc)) (timeStart self));
          [split; reflexivity |].
        destruct (time.Before (time.UTC (proto.Ts doc)) (timeEnd self)).
        + destruct (stats_Add doc (stats_ self)); split; reflexivity.
        + destruct (stats_Add doc (stats_ (newInterval (time.UTC (proto.Ts doc)) self)));
            split; reflexivity.
      - unfold Report, interval.
        destruct (time.Before now (timeEnd self)); split; reflexivity. }
    destruct (step c self) as [rep self1]. cbn [snd] in Hstep.
    specialize (IH self1). destruct (run rest self1) as [reps final].
    cbn [snd] in IH |- *. destruct IH as [IHc IHd], Hstep as [Hc Hd].
    split; congruence.
Qed.

(** X5: rejection is relative to the current window.  After a rotation
    triggered at [ts] (by [Report], or by [Add] of an event at [ts]), an
    event older than the end of the window just closed is dropped: no
    report, no error, nothing changes.  Events of the closed window that
    arrive late are lost. *)
Theorem late_event_after_rotation_is_dropped ts late self :
  aligned self ->
  timeEnd self <= ts ->
  proto.Ts late < timeEnd self ->
  Add late (snd (Report ts self)) = (None, None, snd (Report ts self)) /\
  (forall doc, proto.Ts doc = ts ->
     Add late (snd (Add doc self)) = (None, None, snd (Add doc self))).
Proof.
  intros Hal Hts Hlate.
  assert (Hstart : timeEnd self <= time.Truncate ts (D self)).
  { destruct Hal as (HD & Hend & Hmod).
    apply Truncate_above_aligned; [exact HD | | exact Hts].
    rewrite Hend, Z.add_mod, Hmod, Z.mod_same, Z.mod_0_l by lia. reflexivity. }
  split.
  - apply Add_stale. unfold Report.
    rewrite interval_at_or_after_end by exact Hts. cbn. unfold time.UTC. lia.
  - intros doc Hdoc. subst ts. apply Add_stale.
    assert (Hacc : timeStart self <= proto.Ts doc).
    { destruct Hal as (HD & Hend & _). lia. }
    rewrite Add_not_stale by exact Hacc.
    rewrite interval_at_or_after_end by exact Hts.
    destruct (stats_Add doc (stats_ (newInterval (proto.Ts doc) self))) as [err st].
    cbn. unfold time.UTC. lia.
Qed.

(** X6: for a positive duration the window that [newInterval] sets up
    depends only on the bucket of the instant: every instant of the window
    set up at [ts] sets up the same window. *)
Theorem same_bucket_same_window ts ts' self :
  0 < D self ->
  timeStart (newInterval ts self) <= ts' < timeEnd (newInterval ts self) ->
  window (newInterval ts' self) = window (newInterval ts self).
Proof.
  intros HD Hin. cbn in Hin. unfold time.Add, time.UTC in Hin.
  unfold window, TimeStart, TimeEnd. cbn. unfold time.Add, time.UTC.
  rewrite (Truncate_unique ts' (D self) (time.Truncate ts (D self)));
    [reflexivity | exact HD | now apply Truncate_aligned | exact Hin].
Qed.

(** X7: [New] gives a positive duration for every interval below
    9223372037 seconds, zero included (60 seconds then); the window it sets
    up contains the initial instant and the engine it holds has been
    reset. *)
Theorem New_of_sane_interval t0 cfg :
  0 <= Interval cfg < 9223372037 ->
  0 < D (New t0 cfg) /\
  D (New t0 cfg) =
    (if Interval cfg =? 0 then 60 else Interval cfg) * time.Second /\
  timeStart (New t0 cfg) <= t0 < timeEnd (New t0 cfg) /\
  stats_ (New t0 cfg) = stats_Reset stats_New.
Proof.
  intros Hrange.
  assert (Hd : D (New t0 cfg) =
               (if Interval cfg =? 0 then 60 else Interval cfg) * time.Second).
  { unfold New. destruct (Z.eqb_spec (Interval cfg) 0) as [H0 | Hne].
    - reflexivity.
    - cbn [newInterval D Interval]. unfold time.Second.
      rewrite (wrap_int64_small (Interval cfg)) by lia.
      apply wrap_int64_small. lia. }
  assert (Hpos : 0 < D (New t0 cfg)).
  { rewrite Hd. unfold time.Second.
    destruct (Z.eqb_spec (Interval cfg) 0); lia. }
  split; [exact Hpos |]. split; [exact Hd |]. split; [| reflexivity].
  unfold New in Hpos |- *. cbn [newInterval timeStart timeEnd D] in Hpos |- *.
  unfold time.Add, time.UTC.
  match goal with |- time.Truncate _ ?d <= _ < _ =>
    pose proof (Truncate_bounds t0 d Hpos) end. lia.
Qed.

(** X8: nothing checks the duration.  When it is zero or negative (an
    interval whose nanoseconds wrap around), [Truncate] leaves the instant
    as it is: the window set up at [ts] starts at [ts] and ends at or
    before it, and a trigger at [ts] or later rotates again at once. *)
Theorem nonpositive_duration_rotates_every_time ts ts' self :
  D self <= 0 ->
  ts <= ts' ->
  window (newInterval ts self) = (ts, ts + D self) /\
  timeEnd (newInterval ts self) <= timeStart (newInterval ts self) /\
  snd (interval ts' (newInterval ts self)) = newInterval ts' (newInterval ts self).
Proof.
  intros HD Hle.
  assert (Hw : window (newInterval ts self) = (ts, ts + D self)).
  { unfold window, TimeStart, TimeEnd. cbn. unfold time.Add, time.UTC.
    now rewrite Truncate_nonpositive by exact HD. }
  split; [exact Hw |].
  assert (Hend : timeEnd (newInterval ts self) <= ts).
  { cbn. unfold time.Add, time.UTC. rewrite Truncate_nonpositive by exact HD. lia. }
  split.
  - cbn [newInterval timeStart]. unfold time.UTC.
    rewrite Truncate_nonpositive by exact HD. exact Hend.
  - rewrite interval_at_or_after_end by lia. reflexivity.
Qed.

End Behaviour.

(** ** The classes of a result *)

Lemma cutAt_absent sep s : containsByte sep s = false -> cutAt sep s = None.
Proof.
  induction s as [| c rest IH]; cbn [cutAt containsByte]; [reflexivity |].
  intros Hno. apply orb_false_iff in Hno as [Hc Hrest].
  rewrite Hc, (IH Hrest). reflexivity.
Qed.

Lemma cutAt_first sep before after :
  containsByte sep before = false ->
  cutAt sep (String.append before (String sep after)) = Some (before, after).
Proof.
  induction before as [| c rest IH].
  - intros _. change (cutAt sep (String sep after) = Some (EmptyString, after)).
    cbn [cutAt]. now rewrite Ascii.eqb_refl.
  - intros Hno. cbn [containsByte] in Hno.
    apply orb_false_iff in Hno as [Hc Hrest].
    change (cutAt sep (String c (String.append rest (String sep after))) =
            Some (String c rest, after)).
    cbn [cutAt]. rewrite Hc, (IH Hrest). reflexivity.
Qed.

Section Classes.

Context `{Engine : StatsEngine} `{Merge : MetricsMerge} `{Plat : Platform}.

Lemma fold_AddClass_counts cs : forall g,
  0 <= event.TotalQueries g < 2 ^ 64 ->
  0 <= event.UniqueQueries g < 2 ^ 64 ->
  event.TotalQueries (fold_left AddClass cs g) =
    wrap_uint64 (event.TotalQueries g + fold_right Z.add 0 (map event.TotalQueries cs)) /\
  event.UniqueQueries (fold_left AddClass cs g) =
    wrap_uint64 (event.UniqueQueries g + Z.of_nat (length cs)).
Proof.
  induction cs as [| c cs IH]; intros g Ht Hu; cbn [fold_left map fold_right length].
  - rewrite !Z.add_0_r. now rewrite !wrap_uint64_small.
  - destruct (IH (AddClass g c)) as [IHt IHu].
    + cbn. unfold wrap_uint64. apply Z.mod_pos_bound. lia.
    + cbn. unfold wrap_uint64. apply Z.mod_pos_bound. lia.
    + rewrite IHt, IHu. cbn [AddClass event.TotalQueries event.UniqueQueries].
      unfold wrap_uint64. rewrite !Z.add_mod_idemp_l by lia.
      split; f_equal; lia.
Qed.

(** X9: the classes of a result follow the statistics of the engine, one
    class per entry and in the same order; each class has the id and the
    fingerprint of its entry, counts the entry's queries (as a [uint]) and
    exactly one unique query, and samples examples when the configuration
    asks for them. *)
Theorem classes_follow_statistics self :
  Forall2
    (fun q c =>
       event.Id c = stats.ID q /\
       event.Fingerprint c = stats.Fingerprint q /\
       event.TotalQueries c = wrap_uint64 (stats.Count q) /\
       event.UniqueQueries c = 1 /\
       event.sample c = ExampleQueries (config self))
    (CalcQueriesStats (stats_Queries (stats_ self)) (wrap_int64 (Interval (config self))))
    (report.Class_ (createResult self)) /\
  length (report.Class_ (createResult self)) =
    length (CalcQueriesStats (stats_Queries (stats_ self))
              (wrap_int64 (Interval (config self)))).
Proof.
  unfold createResult. rewrite buildResult_eq. cbn [report.Class_]. split.
  - apply Forall2_map_self. intros q. cbn. repeat split.
  - apply length_map.
Qed.

(** X10: the global class of a result counts what its classes count: its
    total is the sum of the totals of the classes and its number of unique
    queries is the number of classes (both as [uint], modulo [2^64]). *)
Theorem global_class_counts_the_classes self :
  let r := createResult self in
  event.TotalQueries (report.Global r) =
    wrap_uint64 (fold_right Z.add 0 (map event.TotalQueries (report.Class_ r))) /\
  event.UniqueQueries (report.Global r) =
    wrap_uint64 (Z.of_nat (length (report.Class_ r))).
Proof.
  cbv zeta. unfold createResult. rewrite buildResult_eq.
  cbn [report.Global report.Class_].
  apply (fold_AddClass_counts _ (event.NewClass EmptyString EmptyString false));
    cbn; lia.
Qed.

(** X11: the database of an example is the text of the namespace before
    its first dot, and it is empty for a namespace without dot. *)
Theorem exampleDb_is_text_before_first_dot :
  (forall db rest,
     containsByte "."%char db = false ->
     exampleDb (String.append db (String "."%char rest)) = db) /\
  (forall namespace,
     containsByte "."%char namespace = false -> exampleDb namespace = EmptyString).
Proof.
  split.
  - intros db rest Hno. unfold exampleDb, SplitN2.
    rewrite cutAt_first by exact Hno. reflexivity.
  - intros namespace Hno. unfold exampleDb, SplitN2.
    rewrite cutAt_absent by exact Hno. reflexivity.
Qed.

(** X12: examples are gated by the configuration.  With example queries
    switched off no class of a result carries the text of a query, its
    database or its time: every class keeps the empty example it was
    created with. *)
Theorem no_examples_when_switched_off self :
  ExampleQueries (config self) = false ->
  Forall (fun c => event.Example_ c = Some event.zeroExample)
         (report.Class_ (createResult self)).
Proof.
  intros Hoff. unfold createResult. rewrite buildResult_eq. cbn [report.Class_].
  rewrite Hoff. apply List.Forall_forall. intros c Hc.
  apply in_map_iff in Hc as (q & <- & _). reflexivity.
Qed.

End Classes.

(** ** The mutex *)

Section Mutex.

Context `{Engine : StatsEngine} `{Merge : MetricsMerge} `{Plat : Platform}.

(** X13: every path through [Add] and [Report], the early return for a
    stale event included, releases the mutex: run alone from a free mutex,
    a call returns within 20 actions, leaves the aggregator its functional
    embedding computes and leaves the mutex free.  While the mutex is held
    by another goroutine a call cannot begin. *)
Theorem calls_release_the_mutex c self :
  (exists v,
     concurrent.execAlone 20 (concurrent.progOf c)
       {| concurrent.object := self; concurrent.locked := false |} =
     Some (v, {| concurrent.object := snd (step c self);
                 concurrent.locked := false |})) /\
  (forall m, concurrent.locked m = true ->
     concurrent.exec1 (concurrent.progOf c) m = None).
Proof.
  split; [apply call_alone |].
  intros m Hl. destruct (progOf_locks c) as (k & -> & _). cbn. now rewrite Hl.
Qed.

(** X14: calls of [Add] and [Report] made by any number of goroutines and
    interleaved by any schedule leave, whenever the mutex is free, an
    aggregator that some sequence of these calls run one after the other
    leads to; started from a window of positive duration that is aligned,
    the window then seen is aligned too: no state in the middle of a
    rotation shows while the mutex is free. *)
Theorem free_mutex_shows_whole_calls cs a0 schedule :
  aligned a0 ->
  let '(pool, m) :=
    concurrent.execSchedule schedule (map concurrent.progOf cs)
      {| concurrent.object := a0; concurrent.locked := false |} in
  concurrent.locked m = false ->
  aligned (concurrent.object m) /\
  D (concurrent.object m) = D a0 /\
  exists done,
    Forall (fun c => In c cs) done /\ concurrent.object m = snd (run done a0).
Proof.
  intros Hal. pose proof (calls_do_not_interleave cs a0 schedule) as Hser.
  destruct (concurrent.execSchedule _ _ _) as [pool m].
  intros Hl. destruct (Hser Hl) as (done & Hdone & Hobj).
  destruct (run done a0) as [reps final] eqn:Hrun.
  destruct (run_reports done a0 reps final Hal Hrun) as (Hfin & HD & _).
  cbn [snd] in Hobj. rewrite Hobj. split; [exact Hfin |]. split; [exact HD |].
  exists done. rewrite Hrun. split; [exact Hdone | reflexivity].
Qed.

End Mutex.

(** ** The further properties at work *)

Section Scenarios.

#[local] Existing Instance sample.engine.
#[local] Existing Instance sample.merge.
#[local] Existing Instance amd64.

Lemma afterQ1_aligned : aligned sample.afterQ1.
Proof. unfold aligned. repeat split. Qed.

Lemma Add_within_window_accumulates_witness :
  timeStart sample.start <= proto.Ts sample.q1 /\
  proto.Ts sample.q1 < timeEnd sample.start /\
  Add sample.q1 sample.start = (None, None, sample.afterQ1).
Proof.
  split; [vm_compute; discriminate |].
  split; [vm_compute; reflexivity |].
  rewrite (Add_within_window_accumulates sample.q1 sample.start).
  - vm_compute. reflexivity.
  - vm_compute. discriminate.
  - vm_compute. reflexivity.
Defined.

Lemma accepted_event_lies_in_window_witness :
  0 < D sample.afterQ1 /\
  timeStart sample.afterQ1 <= proto.Ts sample.q2 /\
  timeStart sample.afterQ2 <= proto.Ts sample.q2 < timeEnd sample.afterQ2.
Proof.
  split; [vm_compute; reflexivity |].
  split; [vm_compute; discriminate |].
  apply (accepted_event_lies_in_window sample.q2 sample.afterQ1).
  - vm_compute. reflexivity.
  - vm_compute. discriminate.
Defined.

Lemma repeated_trigger_is_quiet_witness :
  0 < D sample.afterQ1 /\
  fst (Report (sample.clock 12 17 30) sample.afterQ1) <> None /\
  Report (sample.clock 12 17 30) (snd (Report (sample.clock 12 17 30) sample.afterQ1)) =
    (None, snd (Report (sample.clock 12 17 30) sample.afterQ1)).
Proof.
  split; [vm_compute; reflexivity |].
  split; [vm_compute; discriminate |].
  destruct (repeated_trigger_is_quiet (sample.clock 12 17 30) (sample.clock 12 17 30)
              sample.afterQ1) as [_ Hquiet].
  - vm_compute. reflexivity.
  - vm_compute. discriminate.
  - exact Hquiet.
Defined.

Lemma late_event_after_rotation_is_dropped_witness :
  aligned sample.afterQ1 /\
  timeEnd sample.afterQ1 <= sample.clock 12 17 30 /\
  timeStart sample.afterQ1 <= proto.Ts sample.late < timeEnd sample.afterQ1 /\
  Add sample.late (snd (Report (sample.clock 12 17 30) sample.afterQ1)) =
    (None, None, snd (Report (sample.clock 12 17 30) sample.afterQ1)).
Proof.
  split; [exact afterQ1_aligned |].
  split; [vm_compute; discriminate |].
  split; [split; [vm_compute; discriminate | vm_compute; reflexivity] |].
  destruct (late_event_after_rotation_is_dropped (sample.clock 12 17 30) sample.late
              sample.afterQ1) as [Hdropped _].
  - exact afterQ1_aligned.
  - vm_compute. discriminate.
  - vm_compute. reflexivity.
  - exact Hdropped.
Defined.

Lemma same_bucket_same_window_witness :
  0 < D sample.afterQ1 /\
  window (newInterval (sample.clock 12 16 59) sample.afterQ1) =
    window (newInterval (sample.clock 12 16 5) sample.afterQ1).
Proof.
  split; [vm_compute; reflexivity |].
  apply (same_bucket_same_window (sample.clock 12 16 5) (sample.clock 12 16 59)
           sample.afterQ1).
  - vm_compute. reflexivity.
  - split; [vm_compute; discriminate | vm_compute; reflexivity].
Defined.

Lemma New_of_sane_interval_witness :
  0 <= Interval sample.zeroConfig < 9223372037 /\
  D (New (sample.clock 12 15 35) sample.zeroConfig) = 60000000000.
Proof.
  split; [vm_compute; split; discriminate + reflexivity |].
  destruct (New_of_sane_interval (sample.clock 12 15 35) sample.zeroConfig)
    as (_ & Hd & _).
  - vm_compute. split; discriminate + reflexivity.
  - rewrite Hd. reflexivity.
Defined.

Lemma nonpositive_duration_rotates_every_time_witness :
  D scenario.wrapped <= 0 /\
  window (newInterval (sample.clock 12 16 0) scenario.wrapped) =
    (sample.clock 12 16 0, sample.clock 12 16 0 + D scenario.wrapped) /\
  snd (interval (sample.clock 12 16 0)
         (newInterval (sample.clock 12 16 0) scenario.wrapped)) =
    newInterval (sample.clock 12 16 0)
      (newInterval (sample.clock 12 16 0) scenario.wrapped).
Proof.
  split; [vm_compute; discriminate |].
  destruct (nonpositive_duration_rotates_every_time
              (sample.clock 12 16 0) (sample.clock 12 16 0) scenario.wrapped)
    as (Hw & _ & Hrot).
  - vm_compute. discriminate.
  - vm_compute. discriminate.
  - split; [exact Hw | exact Hrot].
Defined.

Lemma no_examples_when_switched_off_witness :
  ExampleQueries (config scenario.quietAfterQ1) = false /\
  report.Class_ (createResult scenario.quietAfterQ1) <> [] /\
  Forall (fun c => event.Example_ c = Some event.zeroExample)
         (report.Class_ (createResult scenario.quietAfterQ1)).
Proof.
  split; [reflexivity |].
  split; [vm_compute; discriminate |].
  apply (no_examples_when_switched_off scenario.quietAfterQ1). reflexivity.
Defined.

Lemma free_mutex_shows_whole_calls_witness :
  let final :=
    concurrent.execSchedule
      ([0; 1; 1; 0]%nat ++ repeat 0%nat 20 ++ repeat 1%nat 20)
      (map concurrent.progOf scenario.twoCalls)
      {| concurrent.object := sample.afterQ1; concurrent.locked := false |} in
  aligned sample.afterQ1 /\
  concurrent.locked (snd final) = false /\
  aligned (concurrent.object (snd final)).
Proof.
  cbv zeta. split; [exact afterQ1_aligned |].
  assert (Hfree :
    concurrent.locked
      (snd (concurrent.execSchedule
              ([0; 1; 1; 0]%nat ++ repeat 0%nat 20 ++ repeat 1%nat 20)
              (map concurrent.progOf scenario.twoCalls)
              {| concurrent.object := sample.afterQ1; concurrent.locked := false |})) =
    false) by (vm_compute; reflexivity).
  split; [exact Hfree |].
  pose proof (free_mutex_shows_whole_calls scenario.twoCalls sample.afterQ1
                ([0; 1; 1; 0]%nat ++ repeat 0%nat 20 ++ repeat 1%nat 20)
                afterQ1_aligned) as Hwhole.
  destruct (concurrent.execSchedule _ _ _) as [pool m].
  cbn [snd] in Hfree |- *. apply Hwhole. exact Hfree.
Defined.

End Scenarios.
